(** * pymedB: pagination, rate limiting, open-access lookup and entity records

    A shallow embedding of the client code of the repository
    ([pymedB/pubmed_client_base.py], [pymedB/pmc_client.py],
    [pymedB/pubmed_client.py], [pymedB/utils.py], [pymed/api.py],
    [pymed/article.py], [pymed/book.py], [pymed/summary.py]) and the
    properties its specification states about it.

    Python integers are [Z], strings are [string], dictionaries with string
    keys are [gmap string _], and a call that can raise is a computation in
    the [outcome] type below. *)

From stdpp Require Import base option list gmap strings.
From Stdlib Require Import ZArith Lia Ascii.

Local Open Scope Z_scope.
Set Warnings "-register-all".

(** ** Python outcomes *)

Module Py.

(** The exceptions the embedded code can raise. [Exception] is the bare
    [raise Exception(...)] of the database guard, [SyntaxError] what
    [ElementTree] raises on a path it cannot read. *)
Inductive exn : Type :=
| TypeError
| ValueError
| KeyError
| AttributeError
| HTTPError
| SyntaxError
| OverflowError
| Exception (msg : string).

(** The result of running a piece of code: it returns, it raises, or it is
    still inside a [while] loop when the fuel given to the loop runs out. *)
Inductive outcome (A : Type) : Type :=
| Ret (a : A)
| Raise (e : exn)
| Running.

Arguments Ret {A} a.
Arguments Raise {A} e.
Arguments Running {A}.

(** The result of a call that has come back: a library call, or a dispatch
    that was answered. *)
Inductive completed (A : Type) : Type :=
| Returned (a : A)
| Raised (e : exn).

Arguments Returned {A} a.
Arguments Raised {A} e.

Definition run {A : Type} (c : completed A) : outcome A :=
  match c with
  | Returned a => Ret a
  | Raised e => Raise e
  end.

Definition bind {A B : Type} (c : outcome A) (k : A -> outcome B) : outcome B :=
  match c with
  | Ret a => k a
  | Raise e => Raise e
  | Running => Running
  end.


(** [try: c except Exception: handler]. *)
Definition try_except {A : Type} (c : outcome A) (handler : exn -> outcome A)
    : outcome A :=
  match c with
  | Raise e => handler e
  | _ => c
  end.

End Py.

Export Py.

(** [x ← c; k] is stdpp's notation for monadic bind. *)
#[export] Instance outcome_ret : MRet outcome := @Ret.
#[export] Instance outcome_bind : MBind outcome := fun A B k c => Py.bind c k.
#[export] Instance outcome_fmap : FMap outcome := fun A B f c =>
  Py.bind c (fun a => Ret (f a)).

(** ** XML trees, as [xml.etree.ElementTree] hands them to the code *)

Module Xml.

Inductive Element : Type :=
| Elem (tag : string) (attrib : gmap string string) (text : option string)
       (children : list Element).

Definition tag (e : Element) : string := let 'Elem t _ _ _ := e in t.
Definition attrib (e : Element) : gmap string string := let 'Elem _ a _ _ := e in a.
Definition text (e : Element) : option string := let 'Elem _ _ x _ := e in x.
Definition children (e : Element) : list Element := let 'Elem _ _ _ c := e in c.

(** [Element.iter()]: the element itself, then its subtree in document order. *)
Fixpoint iter (e : Element) : list Element :=
  match e with
  | Elem _ _ _ cs => e :: flat_map iter cs
  end.

(** What [.//] ranges over: every element below [e], [e] itself excluded. *)
Definition descendants (e : Element) : list Element := flat_map iter (children e).

(** One location step of the path language the code uses:
    [tag], [tag[@k='v']] (a child) and [.//tag], [.//tag[@k='v']]
    (a descendant). *)
Inductive step : Type :=
| Child (t : string) (predicate : option (string * string))
| Descendant (t : string) (predicate : option (string * string)).

Definition matches (t : string) (predicate : option (string * string))
    (e : Element) : bool :=
  String.eqb (tag e) t &&
  match predicate with
  | None => true
  | Some (k, v) => bool_decide (attrib e !! k = Some v)
  end.

Definition select (s : step) (e : Element) : list Element :=
  match s with
  | Child t p => List.filter (matches t p) (children e)
  | Descendant t p => List.filter (matches t p) (descendants e)
  end.

(** [element.findall(path)] and [element.find(path)]. *)
Definition findall (e : Element) (path : list step) : list Element :=
  foldl (fun context s => flat_map (select s) context) [e] path.

Definition find (e : Element) (path : list step) : option Element :=
  head (findall e path).

End Xml.

Export Xml.

(** ** Python values stored in dictionaries and in entity fields *)

(** [datetime.date]. *)
Record date : Type := Date { year : Z; month : Z; day : Z }.

Inductive value : Type :=
| VNone
| VStr (s : string)
| VInt (z : Z)
| VDate (d : date)
| VList (items : list value)
| VDict (items : list (string * value))
| VElement (e : Element).

(** ** The JSON document of the search endpoint

    A numeric member of the document ([count], [retmax]) is read by the code
    as [int(d.get(key))]: [Absent] is a missing key, or a value of a type
    [int] does not take, as [null], a list or an object ([TypeError]);
    [NotANumber] a string or a float [int] rejects ([ValueError]);
    [Infinite] an infinite float, which [json] reads from [Infinity]
    ([OverflowError]); and [Number z] a value [int] turns into [z]. *)
Inductive member : Type :=
| Absent
| NotANumber
| Infinite
| Number (z : Z).

Definition int (m : member) : outcome Z :=
  match m with
  | Absent => Raise TypeError
  | NotANumber => Raise ValueError
  | Infinite => Raise OverflowError
  | Number z => Ret z
  end.

(** The member [idlist] is read as [article_ids += d.get("idlist", [])]:
    [Missing] is a missing key (the default [[]]), [Listed ids] a value by
    whose items, [ids], the list is extended, and [NotIterable] a value
    [+=] rejects with [TypeError] ([null], a number, a boolean).
    Identifiers are strings, as the annotation [list[str]] of
    [get_article_ids] has it. *)
Inductive listing : Type :=
| Missing
| Listed (ids : list string)
| NotIterable.

Record esearchresult : Type := ESearchResult {
  count : member;
  retmax : member;
  idlist : listing
}.

(** The parsed response, any JSON value. [Json None] is an object without
    an [esearchresult] member, [Json (Some r)] an object whose
    [esearchresult] is the object [r], [ResultNotAnObject] an object whose
    [esearchresult] is something else ([null], a list, a string, a number),
    and [NotAnObject] a document that is no object itself. *)
Inductive json : Type :=
| Json (esearchresult_of : option esearchresult)
| ResultNotAnObject
| NotAnObject.

(** [response.get("esearchresult", {})], up to the [.get] that follows it:
    the attribute [get] is missing on what is not a dictionary. *)
Definition get_esearchresult (response : json) : outcome esearchresult :=
  match response with
  | Json (Some r) => Ret r
  | Json None => Ret {| count := Absent; retmax := Absent; idlist := Missing |}
  | ResultNotAnObject => Raise AttributeError
  | NotAnObject => Raise AttributeError
  end.

(** The right-hand side of
    [article_ids += response.get("esearchresult", {}).get("idlist", [])],
    as the items the list is extended by. *)
Definition get_idlist (response : json) : outcome (list string) :=
  r ← get_esearchresult response;
  match idlist r with
  | Missing => Ret []
  | Listed ids => Ret ids
  | NotIterable => Raise TypeError
  end.

(** [int(response.get("esearchresult", {}).get("count"))]. *)
Definition get_count (response : json) : outcome Z :=
  r ← get_esearchresult response;
  int (count r).

(** [int(response.get("esearchresult", {}).get("retmax"))]. *)
Definition get_retmax (response : json) : outcome Z :=
  r ← get_esearchresult response;
  int (retmax r).

(** ** The client: [PubMedClientBase]

    Timestamps ([datetime.datetime]) are counted in microseconds, the
    resolution of the type. *)

Record client : Type := Client {
  tool : string;
  email : string;
  _rateLimit : Z;
  _requestsMade : list Z;
  parameters : gmap string value
}.

(** The assignment [self._requestsMade = requests]. *)
Definition set_requestsMade (self : client) (requests : list Z) : client :=
  {| tool := tool self; email := email self; _rateLimit := _rateLimit self;
     _requestsMade := requests; parameters := parameters self |}.

Module PubMedClientBase.

Definition __init__ (tool email : string) (api_key : option string)
    (db : string) : client :=
  let parameters : gmap string value :=
    <["db" := VStr db]> (<["email" := VStr email]> (<["tool" := VStr tool]> ∅)) in
  let parameters :=
    match api_key with
    | Some key => <["api_key" := VStr key]> parameters
    | None => parameters
    end in
  {| tool := tool; email := email; _rateLimit := 3; _requestsMade := [];
     parameters := parameters |}.

(** [datetime.timedelta(seconds=1)]. *)
Definition one_second : Z := 1000000.

Section Dispatch.

(** [now n] is what the [n]-th call of [datetime.datetime.now()] returns;
    every function below threads the number of calls made so far. *)
Variable now : nat -> Z.

(** The list comprehension of [_exceeded_rate_limit]: the clock is read
    once for every tracked timestamp. *)
Fixpoint recent (reads : nat) (requests : list Z) : list Z * nat :=
  match requests with
  | [] => ([], reads)
  | requestTime :: rest =>
      let keep := now reads - one_second <? requestTime in
      let '(kept, reads') := recent (S reads) rest in
      (if keep then requestTime :: kept else kept, reads')
  end.

Definition _exceeded_rate_limit (self : client) (reads : nat)
    : bool * client * nat :=
  let '(kept, reads) := recent reads (_requestsMade self) in
  let self := set_requestsMade self kept in
  (_rateLimit self <? Z.of_nat (length (_requestsMade self)), self, reads).

(** [while self._exceeded_rate_limit(): pass], polling at most [fuel] times. *)
Fixpoint busy_wait (fuel : nat) (self : client) (reads : nat)
    : outcome (client * nat) :=
  match fuel with
  | O => Running
  | S fuel =>
      let '(exceeded, self, reads) := _exceeded_rate_limit self reads in
      if exceeded then busy_wait fuel self reads else Ret (self, reads)
  end.

(** What [requests.get] brings back: whether [raise_for_status] passes, and
    the body as [response.json()] and as [response.text]. *)
Record http_response : Type := HttpResponse {
  status_ok : bool;
  body_json : completed json;
  body_text : string
}.

Inductive payload : Type :=
| AsJson (j : json)
| AsText (s : string).

(** [_get]. It returns the payload together with the client (whose
    [_requestsMade] it changed), the caller's [parameters] dictionary (in
    which it stored ["retmode"]) and the number of clock readings. *)
Definition _get (fuel : nat) (requests_get : string -> gmap string value -> http_response)
    (self : client) (reads : nat) (url : string) (parameters : gmap string value)
    (output : string)
    : outcome (payload * client * gmap string value * nat) :=
  '(self, reads) ← busy_wait fuel self reads;
  let parameters := <["retmode" := VStr output]> parameters in
  let response := requests_get url parameters in
  if status_ok response then
    let self := set_requestsMade self (_requestsMade self ++ [now reads]) in
    let reads := S reads in
    if String.eqb output "json" then
      j ← run (body_json response);
      mret (AsJson j, self, parameters, reads)
    else
      mret (AsText (body_text response), self, parameters, reads)
  else Raise HTTPError.

End Dispatch.

(** *** The search paginator

    [get_article_ids] sees a dispatch only through what [self._get] gives
    back, so the dispatches it makes are taken here as completed: the
    [k]-th one (counted from 0), made with the dictionary [parameters],
    is answered by [esearch k parameters] with a parsed document or with
    the exception [_get] raised. The dictionaries sent are recorded in
    order. *)

(** A computation that dispatches: it reads and extends the record of the
    dictionaries sent so far. *)
Definition io (A : Type) : Type :=
  list (gmap string value) -> outcome A * list (gmap string value).

#[export] Instance io_ret : MRet io := fun A a sent => (Ret a, sent).
#[export] Instance io_bind : MBind io := fun A B k c sent =>
  match c sent with
  | (Ret a, sent) => k a sent
  | (Raise e, sent) => (Raise e, sent)
  | (Running, sent) => (Running, sent)
  end.

Definition lift {A : Type} (c : outcome A) : io A := fun sent => (c, sent).

(** [parameters[key]] read as an integer operand of [<] and [-]. *)
Definition getitem_int (parameters : gmap string value) (key : string) : outcome Z :=
  match parameters !! key with
  | Some (VInt z) => Ret z
  | Some _ => Raise TypeError
  | None => Raise KeyError
  end.

Section Paginator.

Variable esearch : nat -> gmap string value -> completed json.

(** [self._get(url="/entrez/eutils/esearch.fcgi", parameters=parameters)]:
    the document, and the dictionary as [_get] left it. *)
Definition _get_esearch (parameters : gmap string value)
    : io (json * gmap string value) := fun sent =>
  let parameters := <["retmode" := VStr "json"]> parameters in
  (match esearch (length sent) parameters with
   | Returned response => Ret (response, parameters)
   | Raised e => Raise e
   end, sent ++ [parameters]).

(** The variables the [while] loop of [get_article_ids] updates. *)
Record page_state : Type := PageState {
  article_ids : list string;
  page_parameters : gmap string value;
  retrieved_count : Z
}.

(** The body of the loop. *)
Definition next_page (max_results : Z) (st : page_state) : io page_state :=
  let parameters := page_parameters st in
  requested ← lift (getitem_int parameters "retmax");
  let parameters :=
    if max_results - retrieved_count st <? requested
    then <["retmax" := VInt (max_results - retrieved_count st)]> parameters
    else parameters in
  let parameters := <["retstart" := VInt (retrieved_count st)]> parameters in
  '(response, parameters) ← _get_esearch parameters;
  listed ← lift (get_idlist response);
  let article_ids := article_ids st ++ listed in
  retrieved ← lift (get_retmax response);
  mret {| article_ids := article_ids; page_parameters := parameters;
          retrieved_count := retrieved_count st + retrieved |}.

(** The loop, given [fuel] iterations. *)
Fixpoint paginate (fuel : nat) (total_result_count max_results : Z)
    (st : page_state) : io (list string) :=
  if (retrieved_count st <? total_result_count)
     && (retrieved_count st <? max_results)
  then
    match fuel with
    | O => lift Running
    | S fuel =>
        st ← next_page max_results st;
        paginate fuel total_result_count max_results st
    end
  else mret (article_ids st).

Definition get_article_ids (fuel : nat) (self : client) (query : string)
    (max_results : Z) : io (list string) :=
  let article_ids : list string := [] in
  let parameters := parameters self in
  let parameters := <["term" := VStr query]> parameters in
  let parameters := <["retmax" := VInt 50000]> parameters in
  requested ← lift (getitem_int parameters "retmax");
  let parameters :=
    if max_results <? requested
    then <["retmax" := VInt max_results]> parameters
    else parameters in
  '(response, parameters) ← _get_esearch parameters;
  listed ← lift (get_idlist response);
  let article_ids := article_ids ++ listed in
  total_result_count ← lift (get_count response);
  retrieved_count ← lift (get_retmax response);
  let max_results :=
    if max_results =? -1 then total_result_count else max_results in
  paginate fuel total_result_count max_results
    {| article_ids := article_ids; page_parameters := parameters;
       retrieved_count := retrieved_count |}.

(** [get_total_results_count]. *)
Definition get_total_results_count (self : client) (query : string) : io Z :=
  let parameters := parameters self in
  let parameters := <["term" := VStr query]> parameters in
  let parameters := <["retmax" := VInt 1]> parameters in
  '(response, _) ← _get_esearch parameters;
  lift (get_count response).

End Paginator.

End PubMedClientBase.

(** ** The open-access client: [PMC] *)

Module PMC.

Definition __init__ (tool email : string) (api_key : option string) : client :=
  PubMedClientBase.__init__ tool email api_key "pmc".

(** The text of a value inside an f-string, for the strings a client
    stores under ["db"]; the text of another value is not modelled. *)
Definition str (v : value) : string :=
  match v with
  | VStr s => s
  | _ => "?"
  end.

(** The message of the database guard, a line feed in its middle. *)
Definition guard_message (db : value) : string :=
  "Can't download Pubmed Documents from " +:+ str db +:+ " database!"
    +:+ String "010"%char " list of available databases: ['pmc']".

Definition is_str (v : value) (s : string) : bool :=
  match v with
  | VStr s' => String.eqb s' s
  | _ => false
  end.

(** The path [f".//link[@format='{accepted_format}']"], as [ElementTree]
    reads the text when [accepted_format] holds no quote character. *)
Definition link_path (accepted_format : string) : list step :=
  [Descendant "link" (Some ("format", accepted_format))].

Definition quote_free (accepted_format : string) : Prop :=
  "'"%char ∉ String.list_ascii_of_string accepted_format.

Definition has_quote (accepted_format : string) : bool :=
  existsb (Ascii.eqb "'"%char) (String.list_ascii_of_string accepted_format).

(** [node.find(f".//link[@format='{accepted_format}']")]. A quote character
    in [accepted_format] ends the literal early, and [ElementTree] rejects
    what is left of the predicate with [SyntaxError] before it looks at the
    tree. *)
Definition find_link (node : Element) (accepted_format : string)
    : outcome (option Element) :=
  if has_quote accepted_format then Raise SyntaxError
  else Ret (find node (link_path accepted_format)).

Section Resolver.

(** [xml.etree.ElementTree.fromstring], the library's parser. *)
Variable fromstring : string -> completed Element.

(** [self._get("/pmc/utils/oa/oa.fcgi", parameters=parameters, output="xml")]
    as the resolver sees it: the body returned for the dictionary
    dispatched, or the exception raised. *)
Variable oa_lookup : gmap string value -> completed string.

(** [utils.extract_xml]. *)
Definition extract_xml (data : string) : option Element :=
  match fromstring data with
  | Returned root => Some root
  | Raised _ => None
  end.

(** The [for accepted_format in accepted_formats] loop and the [return None]
    after it. [record] is what [root.find(".//record")] gave, [None]
    included: [record.find] then raises. *)
Fixpoint first_accepted_link (record : option Element)
    (accepted_formats : list string) : outcome (option string) :=
  match accepted_formats with
  | [] => Ret None
  | accepted_format :: rest =>
      match record with
      | None => Raise AttributeError
      | Some node =>
          match find_link node accepted_format with
          | Ret (Some link) =>
              match attrib link !! "href" with
              | Some href => Ret (Some href)
              | None => Raise KeyError
              end
          | Ret None => first_accepted_link record rest
          | Raise e => Raise e
          | Running => Running
          end
      end
  end.

Definition get_article_download_url (self : client) (article_id : string)
    (accepted_formats : list string) : outcome (option string) :=
  match parameters self !! "db" with
  | None => Raise KeyError
  | Some db =>
      if negb (is_str db "pmc") then
        Raise (Exception (guard_message db))
      else
        let parameters := parameters self in
        let parameters := <["id" := VStr article_id]> parameters in
        res ← run (oa_lookup (<["retmode" := VStr "xml"]> parameters));
        match extract_xml res with
        | None => Ret None
        | Some root =>
            match find root [Child "error" None] with
            | Some _ => Ret None
            | None =>
                let record := find root [Descendant "record" None] in
                first_accepted_link record accepted_formats
            end
        end
  end.

End Resolver.

End PMC.

(** ** The article client of [pymedB]: [PubMed]

    Its [get_article_download_url] has the text of [PMC]'s, on a client
    whose database is ["pubmed"]. *)

Module PubMed.

Definition __init__ (tool email : string) (api_key : option string) : client :=
  PubMedClientBase.__init__ tool email api_key "pubmed".

Definition get_article_download_url := PMC.get_article_download_url.

End PubMed.

(** ** The client of [pymed/api.py]

    One class for both databases; its resolver tries the two formats in
    the code rather than from a parameter. *)

Module Api.

Definition __init__ (tool email db : string) (api_key : option string) : client :=
  PubMedClientBase.__init__ tool email api_key db.

(** [_get_article_ids] has the text of [PubMedClientBase.get_article_ids]. *)
Definition _get_article_ids := PubMedClientBase.get_article_ids.

Section Resolver.

Variable fromstring : string -> completed Element.
Variable oa_lookup : gmap string value -> completed string.

(** [link.attrib['href']]. *)
Definition href_of (link : Element) : outcome (option string) :=
  match attrib link !! "href" with
  | Some href => Ret (Some href)
  | None => Raise KeyError
  end.

Definition get_article_download_url (self : client) (article_id : string)
    : outcome (option string) :=
  match parameters self !! "db" with
  | None => Raise KeyError
  | Some db =>
      if negb (PMC.is_str db "pmc") then
        Raise (Exception (PMC.guard_message db))
      else
        let parameters := parameters self in
        let parameters := <["id" := VStr article_id]> parameters in
        res ← run (oa_lookup (<["retmode" := VStr "xml"]> parameters));
        match PMC.extract_xml fromstring res with
        | None => Ret None
        | Some root =>
            match find root [Child "error" None] with
            | Some _ => Ret None
            | None =>
                match find root [Descendant "record" None] with
                | None => Raise AttributeError
                | Some record =>
                    match find record (PMC.link_path "pdf") with
                    | Some pdf_link => href_of pdf_link
                    | None =>
                        match find record (PMC.link_path "tgz") with
                        | Some tgz_link => href_of tgz_link
                        | None => Ret None
                        end
                    end
                end
            end
        end
  end.

End Resolver.

End Api.

(** ** Built-ins the entity mappers call *)

Definition digit_of (c : ascii) : option Z :=
  let n := nat_of_ascii c in
  if ((48 <=? n) && (n <=? 57))%nat then Some (Z.of_nat n - 48) else None.

(** The number a string of ASCII decimal digits writes. *)
Fixpoint decimal (acc : Z) (s : list ascii) : option Z :=
  match s with
  | [] => Some acc
  | c :: rest =>
      match digit_of c with
      | Some d => decimal (10 * acc + d) rest
      | None => None
      end
  end.

Section Int.

(** [int] of the library on a string that is not made of 1 to 640 ASCII
    decimal digits: one with a sign, white space, underscores or digits of
    another script, the empty one, or a longer one, which [int] refuses
    beyond a limit that can be set (4300 by default, never below 640). *)
Variable int_str : string -> completed Z.

(** [int(s)] for a string. *)
Definition int_of_string (s : string) : outcome Z :=
  let characters := String.list_ascii_of_string s in
  match characters, decimal 0 characters with
  | _ :: _, Some z =>
      if (length characters <=? 640)%nat then Ret z else run (int_str s)
  | _, _ => run (int_str s)
  end.

(** [int(x)] for what [get_content] returns: a string or [None]. *)
Definition int_of (x : option string) : outcome Z :=
  match x with
  | Some s => int_of_string s
  | None => Raise TypeError
  end.

End Int.

Definition is_leap (y : Z) : bool :=
  (y mod 4 =? 0) && (negb (y mod 100 =? 0) || (y mod 400 =? 0)).

Definition days_in_month (y m : Z) : Z :=
  if m =? 2 then (if is_leap y then 29 else 28)
  else if (m =? 4) || (m =? 6) || (m =? 9) || (m =? 11) then 30
  else 31.

(** An integer that fits the C [int] the constructor of [datetime.date]
    converts its arguments to. *)
Definition c_int (z : Z) : bool := (-2147483648 <=? z) && (z <=? 2147483647).

(** [datetime.date(year=y, month=m, day=d)]. *)
Definition datetime_date (y m d : Z) : outcome date :=
  if negb (c_int y && c_int m && c_int d) then Raise OverflowError
  else if (1 <=? y) && (y <=? 9999) && (1 <=? m) && (m <=? 12)
          && (1 <=? d) && (d <=? days_in_month y m)
  then Ret {| year := y; month := m; day := d |}
  else Raise ValueError.

(** ** Slotted objects

    An instance of a class with [__slots__] is the map from the slots that
    have been assigned to their values. *)

Definition of_text (x : option string) : value :=
  match x with
  | Some s => VStr s
  | None => VNone
  end.

(** [self.__getattribute__(key)] for a slot. *)
Definition get_slot (self : gmap string value) (key : string) : outcome value :=
  match self !! key with
  | Some v => Ret v
  | None => Raise AttributeError
  end.

(** [for field in self.__slots__: self.__setattr__(field, kwargs.get(field, None))]. *)
Definition set_slots_from (slots : list string) (kwargs : gmap string value)
    : gmap string value :=
  foldl (fun self field => <[field := default VNone (kwargs !! field)]> self)
        ∅ slots.

(** A dictionary comprehension over the slots; the result keeps their order. *)
Fixpoint dict_of_slots (read : string -> outcome value) (slots : list string)
    : outcome (list (string * value)) :=
  match slots with
  | [] => Ret []
  | key :: rest =>
      v ← read key;
      items ← dict_of_slots read rest;
      mret ((key, v) :: items)
  end.

(** Looking a method up on an instance of a class that defines the methods
    [methods] (and has no instance dictionary). *)
Definition get_method (methods : list string) (name : string) : outcome string :=
  if bool_decide (name ∈ methods) then Ret name else Raise AttributeError.

(** ** [helpers.get_content] *)

Module Helpers.

(** Modelled from the spec: [helpers.py] is not among the sources, and the
    specification describes its [get_content] as returning the text content
    of the first element matching a relative path under a given subtree
    root, or [default] if no match exists, never throwing for a missing
    path. The specification does not say what happens when the subtree
    handed in is [None]; [tolerant] chooses between the two things a helper
    can do then: return [default] as well, or raise the [AttributeError] of
    a method call on [None]. *)
Definition get_content (tolerant : bool) (element : option Element)
    (path : list step) (default : option string) : outcome (option string) :=
  match element with
  | Some e =>
      match find e path with
      | Some found => Ret (text found)
      | None => Ret default
      end
  | None => if tolerant then Ret default else Raise AttributeError
  end.

End Helpers.

(** ** The article entity: [PubMedArticle] *)

Module PubMedArticle.

Definition __slots__ : list string :=
  ["pubmed_id"; "title"; "abstract"; "keywords"; "journal";
   "publication_date"; "authors"; "methods"; "conclusions"; "results";
   "copyrights"; "doi"; "xml"].

Section ArticleMapper.

Variable tolerant : bool.

(** [int] of the library, on the strings [int_of_string] leaves to it. *)
Variable int_str : string -> completed Z.

Abbreviation get_content := (Helpers.get_content tolerant).

Definition _extract_pubmed_id (xml_element : Element) : outcome (option string) :=
  get_content (Some xml_element) [Descendant "ArticleId" (Some ("IdType", "pubmed"))] None.

Definition _extract_title (xml_element : Element) : outcome (option string) :=
  get_content (Some xml_element) [Descendant "ArticleTitle" None] None.

Definition _extract_keywords (xml_element : Element) : list (option string) :=
  text <$> findall xml_element [Descendant "Keyword" None].

Definition _extract_journal (xml_element : Element) : outcome (option string) :=
  get_content (Some xml_element) [Descendant "Journal" None; Child "Title" None] None.

Definition _extract_abstract (xml_element : Element) : outcome (option string) :=
  get_content (Some xml_element) [Descendant "AbstractText" None] None.

Definition _extract_conclusions (xml_element : Element) : outcome (option string) :=
  get_content (Some xml_element)
    [Descendant "AbstractText" (Some ("Label", "CONCLUSION"))] None.

Definition _extract_methods (xml_element : Element) : outcome (option string) :=
  get_content (Some xml_element)
    [Descendant "AbstractText" (Some ("Label", "METHOD"))] None.

Definition _extract_results (xml_element : Element) : outcome (option string) :=
  get_content (Some xml_element)
    [Descendant "AbstractText" (Some ("Label", "RESULTS"))] None.

Definition _extract_copyrights (xml_element : Element) : outcome (option string) :=
  get_content (Some xml_element) [Descendant "CopyrightInformation" None] None.

Definition _extract_doi (xml_element : Element) : outcome (option string) :=
  get_content (Some xml_element) [Descendant "ArticleId" (Some ("IdType", "doi"))] None.

(** The [try] block of [_extract_publication_date]. *)
Definition parse_publication_date (xml_element : Element) : outcome (option date) :=
  let publication_date :=
    find xml_element [Descendant "PubMedPubDate" (Some ("PubStatus", "pubmed"))] in
  y ← get_content publication_date [Descendant "Year" None] None;
  publication_year ← int_of int_str y;
  m ← get_content publication_date [Descendant "Month" None] (Some "1");
  publication_month ← int_of int_str m;
  d ← get_content publication_date [Descendant "Day" None] (Some "1");
  publication_day ← int_of int_str d;
  made ← datetime_date publication_year publication_month publication_day;
  mret (Some made).

(** [_extract_publication_date]; the handler also prints the exception. *)
Definition _extract_publication_date (xml_element : Element) : outcome (option date) :=
  try_except (parse_publication_date xml_element) (fun e => Ret None).

Definition author_dict (author : Element) : outcome value :=
  lastname ← get_content (Some author) [Descendant "LastName" None] None;
  firstname ← get_content (Some author) [Descendant "ForeName" None] None;
  initials ← get_content (Some author) [Descendant "Initials" None] None;
  affiliation ← get_content (Some author)
    [Descendant "AffiliationInfo" None; Child "Affiliation" None] None;
  mret (VDict [("lastname", of_text lastname); ("firstname", of_text firstname);
               ("initials", of_text initials); ("affiliation", of_text affiliation)]).

Fixpoint each {A B : Type} (f : A -> outcome B) (l : list A) : outcome (list B) :=
  match l with
  | [] => Ret []
  | a :: rest => b ← f a; bs ← each f rest; mret (b :: bs)
  end.

Definition _extract_authors (xml_element : Element) : outcome (list value) :=
  each author_dict (findall xml_element [Descendant "Author" None]).

Definition _initializeFromXML (xml_element : Element) : outcome (gmap string value) :=
  let self : gmap string value := ∅ in
  pubmed_id ← _extract_pubmed_id xml_element;
  let self := <["pubmed_id" := of_text pubmed_id]> self in
  title ← _extract_title xml_element;
  let self := <["title" := of_text title]> self in
  let self := <["keywords" := VList (of_text <$> _extract_keywords xml_element)]> self in
  journal ← _extract_journal xml_element;
  let self := <["journal" := of_text journal]> self in
  abstract ← _extract_abstract xml_element;
  let self := <["abstract" := of_text abstract]> self in
  conclusions ← _extract_conclusions xml_element;
  let self := <["conclusions" := of_text conclusions]> self in
  methods ← _extract_methods xml_element;
  let self := <["methods" := of_text methods]> self in
  results ← _extract_results xml_element;
  let self := <["results" := of_text results]> self in
  copyrights ← _extract_copyrights xml_element;
  let self := <["copyrights" := of_text copyrights]> self in
  doi ← _extract_doi xml_element;
  let self := <["doi" := of_text doi]> self in
  publication_date ← _extract_publication_date xml_element;
  let self := <["publication_date" := from_option VDate VNone publication_date]> self in
  authors ← _extract_authors xml_element;
  let self := <["authors" := VList authors]> self in
  let self := <["xml" := VElement xml_element]> self in
  mret self.

Definition __init__ (xml_element : option Element) (kwargs : gmap string value)
    : outcome (gmap string value) :=
  match xml_element with
  | Some xml_element => _initializeFromXML xml_element
  | None => Ret (set_slots_from __slots__ kwargs)
  end.

End ArticleMapper.

Definition toDict (self : gmap string value) : outcome (list (string * value)) :=
  dict_of_slots (get_slot self) __slots__.

End PubMedArticle.

(** ** The book entity: [PubMedBookArticle] *)

Module PubMedBookArticle.

Definition __slots__ : list string :=
  ["pubmed_id"; "title"; "abstract"; "publication_date"; "authors";
   "copyrights"; "doi"; "isbn"; "language"; "publication_type"; "sections";
   "publisher"; "publisher_location"].

(** The names the class body binds with [def]. *)
Definition methods : list string :=
  ["__init__"; "_extract_pubmed_id"; "_extract_title"; "_extract_abstract";
   "_extract_copyrights"; "_extract_doi"; "_extract_isbn"; "_extract_language";
   "_extract_publication_type"; "_extract_publication_date";
   "_extract_publisher"; "_extract_publisher_location"; "_extract_authors";
   "_extract_sections"; "_initialize_from_xml"; "to_dict"; "to_json"].

Section BookMapper.

Variable tolerant : bool.

Abbreviation get_content := (Helpers.get_content tolerant).

Definition extract (xml_element : Element) (path : list step) : outcome value :=
  of_text <$> get_content (Some xml_element) path None.

Definition _extract_pubmed_id (xml_element : Element) : outcome value :=
  extract xml_element [Descendant "ArticleId" (Some ("IdType", "pubmed"))].

Definition _extract_title (xml_element : Element) : outcome value :=
  extract xml_element [Descendant "BookTitle" None].

Definition _extract_abstract (xml_element : Element) : outcome value :=
  extract xml_element [Descendant "AbstractText" None].

Definition _extract_copyrights (xml_element : Element) : outcome value :=
  extract xml_element [Descendant "CopyrightInformation" None].

Definition _extract_doi (xml_element : Element) : outcome value :=
  extract xml_element [Descendant "ArticleId" (Some ("IdType", "doi"))].

Definition _extract_isbn (xml_element : Element) : outcome value :=
  extract xml_element [Descendant "Isbn" None].

Definition _extract_language (xml_element : Element) : outcome value :=
  extract xml_element [Descendant "Language" None].

Definition _extract_publication_type (xml_element : Element) : outcome value :=
  extract xml_element [Descendant "PublicationType" None].

Definition _extract_publication_date (xml_element : Element) : outcome value :=
  extract xml_element [Descendant "PubDate" None; Child "Year" None].

Definition _extract_publisher (xml_element : Element) : outcome value :=
  extract xml_element [Descendant "Publisher" None; Child "PublisherName" None].

Definition _extract_publisher_location (xml_element : Element) : outcome value :=
  extract xml_element [Descendant "Publisher" None; Child "PublisherLocation" None].

Definition author_dict (author : Element) : outcome value :=
  collective ← extract author [Descendant "CollectiveName" None];
  lastname ← extract author [Descendant "LastName" None];
  firstname ← extract author [Descendant "ForeName" None];
  initials ← extract author [Descendant "Initials" None];
  mret (VDict [("collective", collective); ("lastname", lastname);
               ("firstname", firstname); ("initials", initials)]).

Definition _extract_authors (xml_element : Element) : outcome value :=
  VList <$> PubMedArticle.each author_dict
              (findall xml_element [Descendant "Author" None]).

Definition section_dict (section : Element) : outcome value :=
  title ← extract section [Descendant "SectionTitle" None];
  chapter ← extract section [Descendant "LocationLabel" None];
  mret (VDict [("title", title); ("chapter", chapter)]).

Definition _extract_sections (xml_element : Element) : outcome value :=
  VList <$> PubMedArticle.each section_dict
              (findall xml_element [Descendant "Section" None]).

Definition _initialize_from_xml (xml_element : Element)
    : outcome (gmap string value) :=
  let self : gmap string value := ∅ in
  v ← _extract_pubmed_id xml_element; let self := <["pubmed_id" := v]> self in
  v ← _extract_title xml_element; let self := <["title" := v]> self in
  v ← _extract_abstract xml_element; let self := <["abstract" := v]> self in
  v ← _extract_copyrights xml_element; let self := <["copyrights" := v]> self in
  v ← _extract_doi xml_element; let self := <["doi" := v]> self in
  v ← _extract_isbn xml_element; let self := <["isbn" := v]> self in
  v ← _extract_language xml_element; let self := <["language" := v]> self in
  v ← _extract_publication_date xml_element;
  let self := <["publication_date" := v]> self in
  v ← _extract_authors xml_element; let self := <["authors" := v]> self in
  v ← _extract_publication_type xml_element;
  let self := <["publication_type" := v]> self in
  v ← _extract_publisher xml_element; let self := <["publisher" := v]> self in
  v ← _extract_publisher_location xml_element;
  let self := <["publisher_location" := v]> self in
  v ← _extract_sections xml_element; let self := <["sections" := v]> self in
  mret self.

(** Calling what [self.<name>] resolved to with an XML element. *)
Definition call_with_element (name : string) (xml_element : Element)
    : outcome (gmap string value) :=
  if String.eqb name "_initialize_from_xml" then _initialize_from_xml xml_element
  else Raise TypeError.

Definition __init__ (xml_element : option Element) (kwargs : gmap string value)
    : outcome (gmap string value) :=
  match xml_element with
  | Some xml_element =>
      bound ← get_method methods "_initializeFromXML";
      call_with_element bound xml_element
  | None => Ret (set_slots_from __slots__ kwargs)
  end.

End BookMapper.

(** [hasattr(self, key)] for a slot. *)
Definition hasattr (self : gmap string value) (key : string) : bool :=
  bool_decide (is_Some (self !! key)).

Definition to_dict (self : gmap string value) : outcome (list (string * value)) :=
  dict_of_slots
    (fun key => if hasattr self key then get_slot self key else Ret VNone)
    __slots__.

(** Calling what [self.<name>] resolved to without arguments. *)
Definition call (name : string) (self : gmap string value)
    : outcome (list (string * value)) :=
  if String.eqb name "to_dict" then to_dict self else Raise TypeError.

Section Json.

(** [json.dumps(_, sort_keys=True, indent=4)] and [str] on a date, both the
    library's. *)
Variable json_dumps : list (string * value) -> completed string.
Variable str_of_date : date -> string.

Definition to_json (self : gmap string value) : outcome string :=
  bound ← get_method methods "toDict";
  items ← call bound self;
  run (json_dumps
         ((fun '(key, v) =>
             (key, match v with
                   | VDate d => VStr (str_of_date d)
                   | _ => v
                   end)) <$> items)).

End Json.

End PubMedBookArticle.


(** ** Generators

    A generator function is embedded by what iterating it to the end
    gives: the values yielded, in order, and how the iteration ended. A
    consumer that stops early sees a prefix of [yielded]. *)

Record generated (A : Type) : Type := Generated {
  yielded : list A;
  finished : outcome unit
}.

Arguments Generated {A} yielded finished.
Arguments yielded {A} g.
Arguments finished {A} g.

(** A generator that raises (or hangs) before its first [yield]. *)
Definition stopped {A : Type} (end_ : outcome unit) : generated A :=
  {| yielded := []; finished := end_ |}.

(** [for a in l: yield f(a)]. *)
Fixpoint yield_each {A B : Type} (f : A -> outcome B) (l : list A) : generated B :=
  match l with
  | [] => {| yielded := []; finished := Ret tt |}
  | a :: rest =>
      match f a with
      | Ret b =>
          let g := yield_each f rest in
          {| yielded := b :: yielded g; finished := finished g |}
      | Raise e => stopped (Raise e)
      | Running => stopped Running
      end
  end.

(** One generator body after another; [itertools.chain] of two generators. *)
Definition chain {A : Type} (g1 g2 : generated A) : generated A :=
  match finished g1 with
  | Ret _ => {| yielded := yielded g1 ++ yielded g2; finished := finished g2 |}
  | _ => g1
  end.

(** ** The summary entity: [summary.py] *)

Module Summary.

Record ArticleSummary : Type := {
  doc_id : option string;
  pub_date : option string;
  epub_date : option string;
  source : option string;
  author_list : list (option string);
  title : option string;
  volume : option string;
  issue : option string;
  pages : option string;
  article_ids : gmap string (option string);
  doi : option string;
  full_journal_name : option string;
  so : option string
}.

(** The path [f".//Item[@Name='{item_name}']"]. *)
Definition item_path (item_name : string) : list step :=
  [Descendant "Item" (Some ("Name", item_name))].

(** The text of the first [Item] below [docsum] whose [Name] is
    [item_name]. *)
Definition item_text (docsum : Element) (item_name : string) : option string :=
  match find docsum (item_path item_name) with
  | Some item => text item
  | None => None
  end.

(** [get_item_value]. A quote character in [item_name] ends the literal of
    the path early, and [ElementTree] raises [SyntaxError]. *)
Definition get_item_value (docsum : Element) (item_name : string)
    : outcome (option string) :=
  if PMC.has_quote item_name then Raise SyntaxError
  else Ret (item_text docsum item_name).

(** [for item in ...: article_ids[item.attrib['Name']] = item.text]. *)
Fixpoint collect_article_ids (items : list Element)
    (article_ids : gmap string (option string))
    : outcome (gmap string (option string)) :=
  match items with
  | [] => Ret article_ids
  | item :: rest =>
      match attrib item !! "Name" with
      | Some name => collect_article_ids rest (<[name := text item]> article_ids)
      | None => Raise KeyError
      end
  end.

Definition from_xml (docsum : Element) : outcome ArticleSummary :=
  match find docsum [Child "Id" None] with
  | None => Raise AttributeError
  | Some id =>
      let doc_id := text id in
      pub_date ← get_item_value docsum "PubDate";
      epub_date ← get_item_value docsum "EPubDate";
      source ← get_item_value docsum "Source";
      title ← get_item_value docsum "Title";
      volume ← get_item_value docsum "Volume";
      issue ← get_item_value docsum "Issue";
      pages ← get_item_value docsum "Pages";
      doi ← get_item_value docsum "DOI";
      full_journal_name ← get_item_value docsum "FullJournalName";
      so ← get_item_value docsum "SO";
      let author_list :=
        match find docsum (item_path "AuthorList") with
        | Some author_list_elem => text <$> findall author_list_elem (item_path "Author")
        | None => []
        end in
      article_ids ←
        match find docsum (item_path "ArticleIds") with
        | Some article_ids_elem =>
            collect_article_ids (findall article_ids_elem [Child "Item" None]) ∅
        | None => Ret ∅
        end;
      mret {| doc_id := doc_id; pub_date := pub_date; epub_date := epub_date;
              source := source; author_list := author_list; title := title;
              volume := volume; issue := issue; pages := pages;
              article_ids := article_ids; doi := doi;
              full_journal_name := full_journal_name; so := so |}
  end.

Section Parse.

(** [xml.etree.ElementTree.fromstring]. *)
Variable fromstring : string -> completed Element.

Definition _parse_xml (xml_string : string) : outcome (list ArticleSummary) :=
  root ← run (fromstring xml_string);
  PubMedArticle.each from_xml (findall root [Child "DocSum" None]).

End Parse.

End Summary.

(** ** The article client of [pymedB], the methods that build entities

    [get_articles], [get_articles_summaries] and
    [query_article_download_urls] of [pymedB/pubmed_client.py]; the first two
    are also [_get_articles] and [_get_articles_summaries] of
    [pymed/api.py], which has them without the database guard. *)

(** What [get_articles] yields. *)
Inductive entity : Type :=
| Article (self : gmap string value)
| Book (self : gmap string value).

Module PubMedClient.

Section Fetch.

Variable tolerant : bool.
Variable int_str : string -> completed Z.
Variable fromstring : string -> completed Element.

(** [self._get(url=..., parameters=parameters, output="xml")] for the fetch
    and the summary endpoint: the body returned for the dictionary
    dispatched, or the exception raised. *)
Variable efetch : gmap string value -> completed string.
Variable esummary : gmap string value -> completed string.

(** The dictionary of a fetch: [parameters["id"] = article_ids], and the
    ["retmode"] that [_get] stores. *)
Definition fetch_request (self : client) (article_ids : list string)
    : gmap string value :=
  <["retmode" := VStr "xml"]>
    (<["id" := VList (VStr <$> article_ids)]> (parameters self)).

(** The two loops of [get_articles] over the parsed document. *)
Definition articles_then_books (root : Element) : generated entity :=
  chain
    (yield_each
       (fun article =>
          Article <$> PubMedArticle.__init__ tolerant int_str (Some article) ∅)
       (List.filter (fun e => String.eqb (tag e) "PubmedArticle") (iter root)))
    (yield_each (fun book => Book <$> PubMedBookArticle.__init__ tolerant (Some book) ∅)
       (List.filter (fun e => String.eqb (tag e) "PubmedBookArticle") (iter root))).

(** [_get_articles] of [pymed/api.py]. *)
Definition _get_articles (self : client) (article_ids : list string)
    : generated entity :=
  match efetch (fetch_request self article_ids) with
  | Raised e => stopped (Raise e)
  | Returned response =>
      match fromstring response with
      | Raised e => stopped (Raise e)
      | Returned root => articles_then_books root
      end
  end.

(** [get_articles] of [pymedB/pubmed_client.py]. *)
Definition get_articles (self : client) (article_ids : list string)
    : generated entity :=
  match parameters self !! "db" with
  | None => stopped (Raise KeyError)
  | Some db =>
      if negb (PMC.is_str db "pubmed") then
        stopped (Raise (Exception
          ("can get articles of only 'pubmed' database, your database: "
             +:+ PMC.str db)))
      else _get_articles self article_ids
  end.

(** [get_articles_summaries]; [_get_articles_summaries] of [pymed/api.py]
    has the same text. *)
Definition get_articles_summaries (self : client) (article_ids : list string)
    : generated Summary.ArticleSummary :=
  match esummary (fetch_request self article_ids) with
  | Raised e => stopped (Raise e)
  | Returned response =>
      match fromstring response with
      | Raised e => stopped (Raise e)
      | Returned root =>
          yield_each Summary.from_xml (findall root [Child "DocSum" None])
      end
  end.

End Fetch.

End PubMedClient.

(** ** Download links for a whole search: [query_article_download_urls]

    [PMC] and [PubMed] of [pymedB] have it with the same text. The lookups
    are seen as in the resolver: the body for the dictionary dispatched. *)

Module PMCQuery.

Import PubMedClientBase.

Section Batch.

Variable fromstring : string -> completed Element.
Variable oa_lookup : gmap string value -> completed string.
Variable esearch : nat -> gmap string value -> completed json.

Definition query_article_download_urls (fuel : nat) (self : client)
    (query : string) (max_results : Z) (accepted_formats : list string)
    : io (list (option string)) :=
  match parameters self !! "db" with
  | None => lift (Raise KeyError)
  | Some db =>
      if negb (PMC.is_str db "pmc") then
        lift (Raise (Exception (PMC.guard_message db)))
      else
        articles_ids ← get_article_ids esearch fuel self query max_results;
        lift (PubMedArticle.each
                (fun article_id =>
                   PMC.get_article_download_url fromstring oa_lookup self
                     article_id accepted_formats)
                articles_ids)
  end.

End Batch.

End PMCQuery.

(** * What the properties are stated with *)

(** ** Sources answering the search paginator *)

(** The number of results a reply reports as retrieved. *)
Definition reported (r : completed json) : Z :=
  match r with
  | Returned response =>
      match get_retmax response with
      | Ret n => n
      | _ => 0
      end
  | Raised _ => 0
  end.

(** The count a reply reports. *)
Definition reported_total (r : completed json) : Z :=
  match r with
  | Returned response =>
      match get_count response with
      | Ret n => n
      | _ => 0
      end
  | Raised _ => 0
  end.

(** The offset a dictionary asks for; a dictionary without ["retstart"] asks
    for the start. *)
Definition requested_retstart (p : gmap string value) : Z :=
  match p !! "retstart" with
  | Some (VInt z) => z
  | _ => 0
  end.

(** The dictionary of the first dispatch of [get_article_ids]. *)
Definition first_request (self : client) (query : string) (max_results : Z)
    : gmap string value :=
  <["retmode" := VStr "json"]>
    (let parameters :=
       <["retmax" := VInt 50000]> (<["term" := VStr query]> (parameters self)) in
     if max_results <? 50000
     then <["retmax" := VInt max_results]> parameters
     else parameters).

(** The dictionary an iteration of the loop sends, when the dictionary it
    starts from holds the page size [requested]. *)
Definition request (max_results : Z) (st : PubMedClientBase.page_state)
    (requested : Z) : gmap string value :=
  <["retmode" := VStr "json"]>
    (<["retstart" := VInt (PubMedClientBase.retrieved_count st)]>
       (if max_results - PubMedClientBase.retrieved_count st <? requested
        then <["retmax" := VInt (max_results - PubMedClientBase.retrieved_count st)]>
               (PubMedClientBase.page_parameters st)
        else PubMedClientBase.page_parameters st)).

(** A page is a complete document: it reports the total [total], lists
    identifiers, and reports as [retmax] how many it lists. *)
Definition well_formed (total : Z) (r : completed json) : Prop :=
  exists ids,
    r = Returned (Json (Some {| count := Number total;
                                retmax := Number (Z.of_nat (length ids));
                                idlist := Listed ids |})).

(** The invariant of the loop when [max_results] is not negative. *)
Definition bounded_inv (max_results : Z) (st : PubMedClientBase.page_state) : Prop :=
  exists requested,
    PubMedClientBase.page_parameters st !! "retmax" = Some (VInt requested) /\
    0 <= requested /\ (0 < max_results -> 1 <= requested) /\
    PubMedClientBase.retrieved_count st =
      Z.of_nat (length (PubMedClientBase.article_ids st)) /\
    PubMedClientBase.retrieved_count st <= max_results.

(** The invariant of the loop when [max_results] is -1. *)
Definition unbounded_inv (total : Z) (st : PubMedClientBase.page_state) : Prop :=
  PubMedClientBase.page_parameters st !! "retmax" = Some (VInt (-1)) /\
  PubMedClientBase.retrieved_count st =
    Z.of_nat (length (PubMedClientBase.article_ids st)) /\
  PubMedClientBase.retrieved_count st <= total.

Section Sources.

Variable esearch : nat -> gmap string value -> completed json.

(** Every page is well formed and reports the same total. *)
Definition faithful (total : Z) : Prop :=
  forall k p, well_formed total (esearch k p).

(** A page holds no more results than the request asked for. *)
Definition honours_retmax : Prop :=
  forall k p requested,
    p !! "retmax" = Some (VInt requested) -> 0 <= requested ->
    reported (esearch k p) <= requested.

(** A page never reaches past the total. *)
Definition within_total (total : Z) : Prop :=
  forall k p,
    requested_retstart p <= total ->
    requested_retstart p + reported (esearch k p) <= total.

(** No page reports a negative [retmax], and a page asked for at an offset
    below the total, with a page size other than 0, reports at least 1. *)
Definition advancing (total : Z) : Prop :=
  forall k p response n,
    esearch k p = Returned response -> get_retmax response = Ret n ->
    0 <= n /\
    (0 <= requested_retstart p < total -> p !! "retmax" <> Some (VInt 0) ->
     1 <= n).

(** The sum of the [retmax] values reported in the replies to the
    dispatches [sent], the first of which was dispatch number [k]. *)
Fixpoint reported_from (k : nat) (sent : list (gmap string value)) : Z :=
  match sent with
  | [] => 0
  | p :: rest => reported (esearch k p) + reported_from (S k) rest
  end.

(** The same sum over the first [k] dispatches of [sent]. *)
Definition reported_before (sent : list (gmap string value)) (k : nat) : Z :=
  reported_from 0 (take k sent).

Definition offsets_follow_reports (sent : list (gmap string value)) : Prop :=
  forall k p,
    sent !! S k = Some p ->
    p !! "retstart" = Some (VInt (reported_before sent (S k))).

End Sources.


(** A source holding the identifiers [ids]: it answers a request with the
    slice that starts at [retstart], of the requested size (of 2 when the
    size asked for is negative, of 20 when none is given). *)
Definition catalogue (ids : list string) : nat -> gmap string value -> completed json :=
  fun _ p =>
    let size :=
      match p !! "retmax" with
      | Some (VInt z) => if z <? 0 then 2 else z
      | _ => 20
      end in
    let page := take (Z.to_nat size) (drop (Z.to_nat (requested_retstart p)) ids) in
    Returned (Json (Some {| count := Number (Z.of_nat (length ids));
                            retmax := Number (Z.of_nat (length page));
                            idlist := Listed page |})).

(** A source like [catalogue] that never serves more than two identifiers
    a page. *)
Definition small_pages (ids : list string)
    : nat -> gmap string value -> completed json :=
  fun _ p =>
    let size :=
      match p !! "retmax" with
      | Some (VInt z) => if z <? 0 then 2 else Z.min z 2
      | _ => 2
      end in
    let page := take (Z.to_nat size) (drop (Z.to_nat (requested_retstart p)) ids) in
    Returned (Json (Some {| count := Number (Z.of_nat (length ids));
                            retmax := Number (Z.of_nat (length page));
                            idlist := Listed page |})).

(** A source that reports five results in total and serves the same two
    identifiers on every page, whatever size and offset are asked. *)
Definition always_two : nat -> gmap string value -> completed json := fun _ _ =>
  Returned (Json (Some {| count := Number 5; retmax := Number 2;
                          idlist := Listed ["21"; "22"] |})).

Definition some_client : client :=
  PubMedClientBase.__init__ "my_tool" "my_email@example.com" None "pmc".

Definition five_ids : list string := ["11"; "12"; "13"; "14"; "15"].

(** The second dictionary of an unbounded search of [five_ids]. *)
Definition second_request : gmap string value :=
  <["retmode" := VStr "json"]>
    (<["retstart" := VInt 2]> (first_request some_client "cancer" (-1))).

(** ** The rate limiter on a concrete run *)

(** A clock that advances by a tenth of a second per reading. *)
Definition slow_clock : nat -> Z := fun n => 100000 * Z.of_nat n.

(** A transport on which every request succeeds. *)
Definition always_ok : string -> gmap string value -> PubMedClientBase.http_response :=
  fun _ _ =>
    {| PubMedClientBase.status_ok := true;
       PubMedClientBase.body_json := Returned (Json None);
       PubMedClientBase.body_text := "" |}.

(** [n] calls of [_get] in a row, each allowed [fuel] polls of the limiter. *)
Fixpoint dispatch (fuel n : nat) (self : client) (reads : nat)
    : outcome (client * nat) :=
  match n with
  | O => Ret (self, reads)
  | S n =>
      '(_, self, _, reads) ←
        PubMedClientBase._get slow_clock fuel always_ok self reads
          "/entrez/eutils/esearch.fcgi" ∅ "json";
      dispatch fuel n self reads
  end.

(** The timestamps of [requests] inside the one-second window that ends at
    [t]. *)
Definition in_window (t : Z) (requests : list Z) : list Z :=
  List.filter (fun requestTime => (t - PubMedClientBase.one_second <? requestTime)
                                  && (requestTime <=? t)) requests.

(** ** Lookup responses *)

(** [link] is the first element below [record], in document order, that is
    a [link] element whose [format] attribute is [fmt]. *)
Definition first_link_of (record : Element) (fmt : string) (link : Element) : Prop :=
  exists before after,
    descendants record = before ++ link :: after /\
    tag link = "link" /\ attrib link !! "format" = Some fmt /\
    forall e, e ∈ before -> ~ (tag e = "link" /\ attrib e !! "format" = Some fmt).


(** The root has an [error] child. *)
Definition has_error (root : Element) : Prop :=
  exists e, e ∈ children root /\ tag e = "error".

(** [record] is the first [record] element below the root. *)
Definition first_record_of (root record : Element) : Prop :=
  exists before after,
    descendants root = before ++ record :: after /\ tag record = "record" /\
    forall e, e ∈ before -> tag e <> "record".

(** Some [record] element lies below the root. *)
Definition has_record (root : Element) : Prop :=
  exists e, e ∈ descendants root /\ tag e = "record".

(** The dictionary the resolver dispatches. *)
Definition oa_request (self : client) (article_id : string) : gmap string value :=
  <["retmode" := VStr "xml"]> (<["id" := VStr article_id]> (parameters self)).

(** A lookup response that parses and holds neither an [error] nor a
    [record] element. *)
Definition bare_response : Element := Elem "OA" ∅ None [].

Definition tgz_link : Element :=
  Elem "link"
    (<["href" := "ftp://ftp.ncbi.nlm.nih.gov/pub/pmc/8e/71/PMC13901.tar.gz"]>
       {["format" := "tgz"]})
    None [].

Definition tgz_record : Element :=
  Elem "record" {["id" := "PMC13901"]} None [tgz_link].

(** The lookup response of the specification's example: a [record] whose
    only [link] is the [tgz] one. *)
Definition tgz_only : Element :=
  Elem "OA" ∅ None [Elem "records" ∅ None [tgz_record]].

(** ** Article records *)

(** What the publication date is read from: the [PubMedPubDate] element
    whose [PubStatus] is [pubmed]. *)
Definition pubmed_date_of (xml_element : Element) : option Element :=
  find xml_element [Descendant "PubMedPubDate" (Some ("PubStatus", "pubmed"))].

(** The text of the first [t] element below [node], and [default] when
    there is no such element. *)
Definition text_or (default : option string) (node : Element) (t : string)
    : option string :=
  match find node [Descendant t None] with
  | Some e => text e
  | None => default
  end.

(** An [int] that rejects every string [int_of_string] leaves to it. *)
Definition plain_int : string -> completed Z := fun _ => Raised ValueError.

(** The date element of a record published in 2018, month and day not given. *)
Definition pubmed_2018 : Element :=
  Elem "PubMedPubDate" {["PubStatus" := "pubmed"]} None
    [Elem "Year" ∅ (Some "2018") []].

Definition article_of_2018 : Element :=
  Elem "PubmedArticle" ∅ None
    [Elem "PubmedData" ∅ None
       [Elem "History" ∅ None
          [Elem "PubMedPubDate" {["PubStatus" := "received"]} None
             [Elem "Year" ∅ (Some "2017") []; Elem "Month" ∅ (Some "11") []];
           pubmed_2018]]].

(** [kwargs.get(field, None)]. *)
Definition kwargs_get (kwargs : gmap string value) (field : string) : value :=
  default VNone (kwargs !! field).

Definition title_and_doi : gmap string value :=
  <["title" := VStr "X"]> {["doi" := VStr "10.1000/1"]}.

(** ** Traces of a search *)

(** The identifiers a reply lists. *)
Definition listed (r : completed json) : list string :=
  match r with
  | Returned response =>
      match get_idlist response with
      | Ret ids => ids
      | _ => []
      end
  | Raised _ => []
  end.

Section Traces.

Variable esearch : nat -> gmap string value -> completed json.

(** The identifiers listed by the replies to the dictionaries [sent], the
    first of which is dispatch number [k], one reply after the other. *)
Fixpoint listed_from (k : nat) (sent : list (gmap string value)) : list string :=
  match sent with
  | [] => []
  | p :: rest => listed (esearch k p) ++ listed_from (S k) rest
  end.

(** Dispatch [k], of dictionary [p], is where the exception [e] comes from:
    [_get] raised it, or reading the reply did: its [idlist], its [retmax]
    or, for the first dispatch, its [count]. *)
Definition fails_at (k : nat) (p : gmap string value) (e : exn) : Prop :=
  match esearch k p with
  | Raised e' => e' = e
  | Returned response =>
      get_idlist response = Raise e \/
      (k = 0%nat /\ get_count response = Raise e) \/
      get_retmax response = Raise e
  end.

End Traces.

(** The page size a dictionary asks for. *)
Definition requested_retmax (p : gmap string value) : option Z :=
  match p !! "retmax" with
  | Some (VInt z) => Some z
  | _ => None
  end.

(** A source that answers the first dispatch with a page of two identifiers
    out of five and raises [HTTPError] on every later one. *)
Definition breaks_after_first : nat -> gmap string value -> completed json :=
  fun k p =>
    match k with
    | O => catalogue five_ids k (<["retmax" := VInt 2]> p)
    | S _ => Raised HTTPError
    end.

(** A source that answers the first dispatch in the same way and every
    later one with a document whose [idlist] is [null]. *)
Definition null_idlist_after_first : nat -> gmap string value -> completed json :=
  fun k p =>
    match k with
    | O => catalogue five_ids k (<["retmax" := VInt 2]> p)
    | S _ => Returned (Json (Some {| count := Number 5; retmax := Number 2;
                                     idlist := NotIterable |}))
    end.

(** ** Clocks *)

(** A clock that never runs backwards. *)
Definition monotone (now : nat -> Z) : Prop :=
  forall m n, (m <= n)%nat -> now m <= now n.

(** From reading [N] on, the clock is a second or more past each of the
    timestamps [requests]. *)
Definition passed_by (now : nat -> Z) (N : nat) (requests : list Z) : Prop :=
  forall n t, (N <= n)%nat -> t ∈ requests ->
    t + PubMedClientBase.one_second <= now n.

(** A client that has just made four requests, at 0 s, 0.2 s, 0.5 s and
    0.9 s. *)
Definition busy_client : client :=
  set_requestsMade some_client [0; 200000; 500000; 900000].

(** A clock that stands still just after the last of these requests. *)
Definition stopped_clock : nat -> Z := fun _ => 950000.

(** A client that tracks, before these four, a request made two seconds
    earlier. *)
Definition stale_then_busy : client :=
  set_requestsMade some_client [-2000000; 0; 200000; 500000; 900000].


(** ** Summaries and generators *)

(** The elements of [l] tagged [t]. *)
Definition tagged (t : string) (l : list Element) : list Element :=
  List.filter (fun e => String.eqb (tag e) t) l.

(** [item] is the last element of [items] whose [Name] attribute is [name]. *)
Definition last_named (items : list Element) (name : string) (item : Element) : Prop :=
  exists before after,
    items = before ++ item :: after /\ attrib item !! "Name" = Some name /\
    forall e, e ∈ after -> attrib e !! "Name" <> Some name.

(** What a generator gave, as a list or nothing: the result of building the
    whole list from it. *)
Definition collected {A : Type} (g : generated A) : outcome (list A) :=
  match finished g with
  | Ret _ => Ret (yielded g)
  | Raise e => Raise e
  | Running => Running
  end.

(** The document of [_test_summary], its first record without the fields
    the properties do not read. *)
Definition docsum_2684823 : Element :=
  Elem "DocSum" ∅ None
    [Elem "Id" ∅ (Some "2684823") [];
     Elem "Item" (<["Type" := "Date"]> {["Name" := "PubDate"]}) (Some "2008 Nov 13") [];
     Elem "Item" (<["Type" := "List"]> {["Name" := "AuthorList"]}) None
       [Elem "Item" (<["Type" := "String"]> {["Name" := "Author"]}) (Some "Varambally S") [];
        Elem "Item" (<["Type" := "String"]> {["Name" := "Author"]}) (Some "Cao Q") []];
     Elem "Item" (<["Type" := "List"]> {["Name" := "ArticleIds"]}) None
       [Elem "Item" (<["Type" := "String"]> {["Name" := "pmid"]}) (Some "19008416") [];
        Elem "Item" (<["Type" := "String"]> {["Name" := "doi"]})
          (Some "10.1126/science.1165395") []]].

(** A record without an [Id]. *)
Definition docsum_without_id : Element :=
  Elem "DocSum" ∅ None
    [Elem "Item" {["Name" := "Source"]} (Some "Science") []].

Definition summary_document : Element :=
  Elem "eSummaryResult" ∅ None
    [Elem "script" ∅ None []; docsum_2684823; docsum_without_id].


(** Some child of [e] is tagged [t]. *)
Definition has_child (e : Element) (t : string) : Prop :=
  exists c, c ∈ children e /\ tag c = t.

(** Some [Item] child of [e] has no [Name] attribute. *)
Definition has_unnamed_item (e : Element) : Prop :=
  exists item, item ∈ tagged "Item" (children e) /\ attrib item !! "Name" = None.

(** A fetched document with an article and a book article. *)
Definition fetch_document : Element :=
  Elem "PubmedArticleSet" ∅ None
    [Elem "PubmedBookArticle" ∅ None []; article_of_2018].

(** ** Batches of lookups *)

(** A lookup service that knows the record of [PMC13901] and answers any
    other identifier with a document holding nothing. *)
Definition tgz_for_13901 : string -> completed Element := fun res =>
  Returned (if String.eqb res "PMC13901" then tgz_only else bare_response).

(** Its transport: the body is the identifier asked for. *)
Definition echo_id : gmap string value -> completed string := fun p =>
  Returned (match p !! "id" with
            | Some (VStr article_id) => article_id
            | _ => ""
            end).

(** A search that lists [PMC13901] and [PMC0] on one page. *)
Definition two_found : nat -> gmap string value -> completed json :=
  catalogue ["PMC13901"; "PMC0"].

(** A [link] element without [href]. *)
Definition bare_link : Element := Elem "link" {["format" := "pdf"]} None [].

Definition bare_link_only : Element :=
  Elem "OA" ∅ None [Elem "records" ∅ None [Elem "record" ∅ None [bare_link]]].

(** * Facts *)

Import PubMedClientBase.

(** ** The search paginator *)

Section PaginatorFacts.

Variable esearch : nat -> gmap string value -> completed json.

Lemma next_page_unfold max_results st sent :
  next_page esearch max_results st sent =
  match getitem_int (page_parameters st) "retmax" with
  | Ret requested =>
      let p := request max_results st requested in
      (match esearch (length sent) p with
       | Returned response =>
           match get_idlist response with
           | Ret listed =>
               match get_retmax response with
               | Ret n =>
                   Ret {| article_ids := article_ids st ++ listed;
                          page_parameters := p;
                          retrieved_count := retrieved_count st + n |}
               | Raise e => Raise e
               | Running => Running
               end
           | Raise e => Raise e
           | Running => Running
           end
       | Raised e => Raise e
       end, sent ++ [p])
  | Raise e => (Raise e, sent)
  | Running => (Running, sent)
  end.
Proof.
  unfold next_page, mbind, io_bind, lift, _get_esearch, request.
  destruct (getitem_int (page_parameters st) "retmax") as [requested|e|]; try reflexivity.
  cbn. destruct (esearch _ _) as [response|e]; try reflexivity.
  destruct (get_idlist response); [|reflexivity..].
  destruct (get_retmax response); reflexivity.
Qed.

(** Reading a reply takes no loop. *)
Lemma get_idlist_terminates response : get_idlist response <> Running.
Proof. by destruct response as [[[? ? []]|]| |]. Qed.

Lemma get_count_terminates response : get_count response <> Running.
Proof. by destruct response as [[[[] ? ?]|]| |]. Qed.

Lemma get_retmax_terminates response : get_retmax response <> Running.
Proof. by destruct response as [[[? [] ?]|]| |]. Qed.

Lemma request_retstart max_results st requested :
  request max_results st requested !! "retstart" = Some (VInt (retrieved_count st)).
Proof. unfold request. by simplify_map_eq. Qed.

Lemma request_retmax max_results st requested :
  page_parameters st !! "retmax" = Some (VInt requested) ->
  request max_results st requested !! "retmax" =
    Some (VInt (Z.min (max_results - retrieved_count st) requested)).
Proof.
  intros H. unfold request. rewrite !lookup_insert_ne by done.
  destruct (Z.ltb_spec (max_results - retrieved_count st) requested).
  - rewrite lookup_insert_eq. do 2 f_equal. lia.
  - rewrite H. do 2 f_equal. lia.
Qed.

Lemma paginate_unfold fuel total max_results st sent :
  paginate esearch fuel total max_results st sent =
  if (retrieved_count st <? total) && (retrieved_count st <? max_results)
  then
    match fuel with
    | O => (Running, sent)
    | S fuel =>
        match next_page esearch max_results st sent with
        | (Ret st', sent') => paginate esearch fuel total max_results st' sent'
        | (Raise e, sent') => (Raise e, sent')
        | (Running, sent') => (Running, sent')
        end
    end
  else (Ret (article_ids st), sent).
Proof.
  destruct fuel; cbn; destruct (_ && _); try reflexivity.
Qed.

(** The loop under an invariant that every iteration keeps. *)
Section Loop.

Variables (total max_results : Z) (Inv : page_state -> Prop) (Progress : Prop).

Hypothesis step : forall st sent,
  Inv st -> retrieved_count st < total -> retrieved_count st < max_results ->
  exists st' sent',
    next_page esearch max_results st sent = (Ret st', sent') /\ Inv st' /\
    (Progress -> retrieved_count st < retrieved_count st').

Lemma paginate_safe fuel : forall st sent,
  Inv st ->
  fst (paginate esearch fuel total max_results st sent) = Running \/
  exists st',
    fst (paginate esearch fuel total max_results st sent) = Ret (article_ids st') /\
    Inv st' /\ (total <= retrieved_count st' \/ max_results <= retrieved_count st').
Proof.
  induction fuel as [|fuel IH]; intros st sent HI; rewrite paginate_unfold.
  - destruct (Z.ltb_spec (retrieved_count st) total);
      destruct (Z.ltb_spec (retrieved_count st) max_results); cbn;
      eauto 6.
  - destruct (Z.ltb_spec (retrieved_count st) total);
      destruct (Z.ltb_spec (retrieved_count st) max_results); cbn;
      eauto 6.
    destruct (step st sent) as (st' & sent' & -> & HI' & _); auto.
Qed.

Lemma paginate_returns fuel : forall st sent,
  Progress -> Inv st ->
  (Z.to_nat (Z.min total max_results - retrieved_count st) <= fuel)%nat ->
  fst (paginate esearch fuel total max_results st sent) <> Running.
Proof.
  induction fuel as [|fuel IH]; intros st sent HP HI Hfuel; rewrite paginate_unfold;
    destruct (Z.ltb_spec (retrieved_count st) total);
    destruct (Z.ltb_spec (retrieved_count st) max_results); cbn;
    try discriminate; try lia.
  destruct (step st sent) as (st' & sent' & -> & HI' & Hlt); auto.
  specialize (Hlt HP). apply IH; auto. lia.
Qed.

End Loop.

Lemma get_article_ids_unfold fuel self query max_results sent :
  get_article_ids esearch fuel self query max_results sent =
  let p := first_request self query max_results in
  match esearch (length sent) p with
  | Returned response =>
      match get_idlist response with
      | Ret listed =>
          match get_count response with
          | Ret total =>
              match get_retmax response with
              | Ret n =>
                  paginate esearch fuel total
                    (if max_results =? -1 then total else max_results)
                    {| article_ids := listed; page_parameters := p;
                       retrieved_count := n |} (sent ++ [p])
              | Raise e => (Raise e, sent ++ [p])
              | Running => (Running, sent ++ [p])
              end
          | Raise e => (Raise e, sent ++ [p])
          | Running => (Running, sent ++ [p])
          end
      | Raise e => (Raise e, sent ++ [p])
      | Running => (Running, sent ++ [p])
      end
  | Raised e => (Raise e, sent ++ [p])
  end.
Proof.
  unfold get_article_ids, first_request, getitem_int.
  rewrite lookup_insert_eq.
  unfold mbind, io_bind, lift, _get_esearch. cbn.
  destruct (esearch _ _) as [response|e]; [|reflexivity].
  destruct (get_idlist response); [|reflexivity..].
  destruct (get_count response); [|reflexivity..].
  destruct (get_retmax response); reflexivity.
Qed.

Lemma first_request_retmax self query max_results :
  first_request self query max_results !! "retmax" =
    Some (VInt (Z.min max_results 50000)).
Proof.
  unfold first_request. rewrite lookup_insert_ne by done.
  destruct (Z.ltb_spec max_results 50000); rewrite lookup_insert_eq;
    do 2 f_equal; lia.
Qed.

Lemma first_request_retstart self query max_results :
  first_request self query max_results !! "retstart" =
    parameters self !! "retstart".
Proof.
  unfold first_request. rewrite lookup_insert_ne by done.
  destruct (max_results <? 50000); by rewrite !lookup_insert_ne by done.
Qed.

Lemma init_retstart tool email api_key db :
  parameters (__init__ tool email api_key db) !! "retstart" = None.
Proof. destruct api_key; cbn; by rewrite !lookup_insert_ne by done. Qed.

Lemma well_formed_inv total k p :
  faithful esearch total ->
  exists ids,
    esearch k p = Returned (Json (Some {| count := Number total;
                               retmax := Number (Z.of_nat (length ids));
                               idlist := Listed ids |})) /\
    reported (esearch k p) = Z.of_nat (length ids).
Proof.
  intros Hf. destruct (Hf k p) as [ids H]. exists ids. split; [done|].
  by rewrite H.
Qed.

Lemma advancing_progress total k p :
  faithful esearch total -> advancing esearch total ->
  0 <= requested_retstart p < total -> p !! "retmax" <> Some (VInt 0) ->
  1 <= reported (esearch k p).
Proof.
  intros Hf Ha Hs Hm. destruct (Hf k p) as [ids H].
  unfold reported. rewrite H. cbn.
  by apply (Ha k p _ _ H).
Qed.

Section Bounded.

Variables (total max_results : Z).
Hypothesis Hfaithful : faithful esearch total.
Hypothesis Hcap : honours_retmax esearch.

Lemma bounded_step st sent :
  bounded_inv max_results st ->
  retrieved_count st < total -> retrieved_count st < max_results ->
  exists st' sent',
    next_page esearch max_results st sent = (Ret st', sent') /\
    bounded_inv max_results st' /\
    (advancing esearch total -> retrieved_count st < retrieved_count st').
Proof.
  intros (requested & Hrm & H0 & H1 & Hlen & Hle) Hlt1 Hlt2.
  rewrite next_page_unfold. unfold getitem_int. rewrite Hrm. cbn zeta.
  set (p := request max_results st requested).
  destruct (well_formed_inv total (length sent) p Hfaithful) as (ids & Hr & Hrep).
  pose proof (request_retmax max_results st requested Hrm) as Hp. fold p in Hp.
  pose proof (request_retstart max_results st requested) as Hs. fold p in Hs.
  assert (Hn : reported (esearch (length sent) p) <=
               Z.min (max_results - retrieved_count st) requested)
    by (apply Hcap; [done | lia]).
  assert (Hg : advancing esearch total ->
               1 <= reported (esearch (length sent) p)).
  { intros Hadv. apply (advancing_progress total); [done | done | |].
    - unfold requested_retstart. rewrite Hs. lia.
    - rewrite Hp. intros [=]. lia. }
  rewrite Hrep in Hn, Hg. rewrite Hr. cbn.
  eexists _, _. split; [reflexivity|]. split.
  - exists (Z.min (max_results - retrieved_count st) requested). cbn.
    rewrite length_app, Nat2Z.inj_add.
    repeat split; [done | lia | lia | lia | lia].
  - intros Hadv. specialize (Hg Hadv). cbn. lia.
Qed.

End Bounded.

(** C1, as the code has it. For every [max_results >= 0] and every source
    whose pages each report the total, list as many identifiers as the
    [retmax] they report, and hold no more than the page size asked for:
    whatever list [get_article_ids] returns has at most [max_results]
    identifiers and at least [min(max_results, total)]; and when no page
    stalls (a page asked for below the total holds at least one result) it
    does return one, given enough iterations. The code never cuts the list:
    the upper bound rests on the pages being no larger than asked. *)
Theorem C1_search_ids_bounds (total : Z) (self : client) (query : string)
    (max_results : Z) :
  0 <= max_results ->
  faithful esearch total -> honours_retmax esearch ->
  (forall fuel ids,
     fst (get_article_ids esearch fuel self query max_results []) = Ret ids ->
     Z.of_nat (length ids) <= max_results /\
     Z.min max_results total <= Z.of_nat (length ids)) /\
  (advancing esearch total ->
   exists enough : nat, forall fuel, (enough <= fuel)%nat ->
   exists ids,
     fst (get_article_ids esearch fuel self query max_results []) = Ret ids /\
     Z.of_nat (length ids) <= max_results /\
     Z.min max_results total <= Z.of_nat (length ids)).
Proof.
  intros Hmax Hf Hcap.
  pose (p := first_request self query max_results).
  destruct (well_formed_inv total 0 p Hf) as (ids0 & Hr & Hrep).
  assert (H0 : Z.of_nat (length ids0) <= Z.min max_results 50000).
  { rewrite <- Hrep. apply Hcap; [apply first_request_retmax | lia]. }
  pose (st0 := {| article_ids := ids0; page_parameters := p;
                  retrieved_count := Z.of_nat (length ids0) |}).
  assert (HI : bounded_inv max_results st0).
  { exists (Z.min max_results 50000). cbn.
    split; [apply first_request_retmax|]. repeat split; lia. }
  pose proof (bounded_step total max_results Hf Hcap) as Hstep.
  assert (Hrun : forall fuel,
    fst (get_article_ids esearch fuel self query max_results []) =
    fst (paginate esearch fuel total max_results st0 [p])).
  { intros fuel. rewrite get_article_ids_unfold. cbn zeta. fold p.
    cbn [length]. rewrite Hr. cbn.
    by replace (max_results =? -1) with false by (symmetry; apply Z.eqb_neq; lia). }
  assert (Hsafe : forall fuel ids,
    fst (paginate esearch fuel total max_results st0 [p]) = Ret ids ->
    Z.of_nat (length ids) <= max_results /\
    Z.min max_results total <= Z.of_nat (length ids)).
  { intros fuel ids Hret.
    destruct (paginate_safe total max_results (bounded_inv max_results) _ Hstep
                fuel st0 [p] HI)
      as [Hrunning | (st' & Hret' & (requested & _ & _ & _ & Hlen & Hle) & Hexit)].
    - congruence.
    - rewrite Hret in Hret'. injection Hret' as ->. lia. }
  split.
  - intros fuel ids. rewrite Hrun. apply Hsafe.
  - intros Hadv.
    exists (Z.to_nat (Z.min total max_results - Z.of_nat (length ids0))).
    intros fuel Hfuel. rewrite Hrun.
    pose proof (paginate_returns total max_results (bounded_inv max_results) _ Hstep
                  fuel st0 [p] Hadv HI Hfuel) as Hnot.
    destruct (fst (paginate esearch fuel total max_results st0 [p])) as [ids|e|] eqn:E.
    + exists ids. split; [done|]. by apply (Hsafe fuel).
    + destruct (paginate_safe total max_results (bounded_inv max_results) _ Hstep
                  fuel st0 [p] HI) as [Hrunning | (st' & Hret' & _)]; congruence.
    + done.
Qed.

Section Unbounded.

Variable total : Z.
Hypothesis Hfaithful : faithful esearch total.
Hypothesis Hwithin : within_total esearch total.

Lemma unbounded_step st sent :
  unbounded_inv total st -> retrieved_count st < total -> retrieved_count st < total ->
  exists st' sent',
    next_page esearch total st sent = (Ret st', sent') /\ unbounded_inv total st' /\
    (advancing esearch total -> retrieved_count st < retrieved_count st').
Proof.
  intros (Hrm & Hlen & Hle) Hlt _.
  rewrite next_page_unfold. unfold getitem_int. rewrite Hrm. cbn zeta.
  set (p := request total st (-1)).
  destruct (well_formed_inv total (length sent) p Hfaithful) as (ids & Hr & Hrep).
  pose proof (request_retmax total st (-1) Hrm) as Hp. fold p in Hp.
  pose proof (request_retstart total st (-1)) as Hs. fold p in Hs.
  assert (Hstart : requested_retstart p = retrieved_count st)
    by (unfold requested_retstart; by rewrite Hs).
  pose proof (Hwithin (length sent) p) as Hn. rewrite Hstart, Hrep in Hn.
  rewrite Hr. cbn.
  eexists _, _. split; [reflexivity|]. split.
  - unfold unbounded_inv. cbn. rewrite length_app, Nat2Z.inj_add.
    split; [|lia]. rewrite Hp. do 2 f_equal. lia.
  - intros Hadv. cbn.
    pose proof (advancing_progress total (length sent) p Hfaithful Hadv) as Hg.
    rewrite Hstart, Hrep, Hp in Hg.
    assert (1 <= Z.of_nat (length ids)); [|lia].
    apply Hg; [lia|]. intros [=]. lia.
Qed.

End Unbounded.

(** C2, as the code has it. With [max_results = -1], on a source that
    reports the stable total [total], on every page a [retmax] that is the
    number of identifiers listed, and no page of which reaches past the
    total from the offset asked: whatever list [get_article_ids] returns
    has exactly [total] identifiers; and when no page stalls it does return
    one, given enough iterations. The code stops when the reported counts
    add up to the total or more; nothing cuts a last page that is too
    large. *)
Theorem C2_unbounded_returns_total (total : Z) (tool email : string)
    (api_key : option string) (db query : string) :
  0 <= total -> faithful esearch total -> within_total esearch total ->
  (forall fuel ids,
     fst (get_article_ids esearch fuel (__init__ tool email api_key db) query (-1) [])
       = Ret ids ->
     Z.of_nat (length ids) = total) /\
  (advancing esearch total ->
   exists enough : nat, forall fuel, (enough <= fuel)%nat ->
   exists ids,
     fst (get_article_ids esearch fuel (__init__ tool email api_key db) query (-1) [])
       = Ret ids /\
     Z.of_nat (length ids) = total).
Proof.
  intros Htotal Hf Hw.
  set (self := __init__ tool email api_key db).
  pose (p := first_request self query (-1)).
  destruct (well_formed_inv total 0 p Hf) as (ids0 & Hr & Hrep).
  assert (Hstart : requested_retstart p = 0).
  { unfold requested_retstart, p.
    rewrite first_request_retstart. unfold self. by rewrite init_retstart. }
  pose proof (Hw 0%nat p) as H0. rewrite Hstart, Hrep in H0.
  pose (st0 := {| article_ids := ids0; page_parameters := p;
                  retrieved_count := Z.of_nat (length ids0) |}).
  assert (HI : unbounded_inv total st0).
  { unfold unbounded_inv, st0, page_parameters, article_ids, retrieved_count.
    split; [exact (first_request_retmax self query (-1))|]. lia. }
  pose proof (unbounded_step total Hf Hw) as Hstep.
  assert (Hrun : forall fuel,
    fst (get_article_ids esearch fuel self query (-1) []) =
    fst (paginate esearch fuel total total st0 [p])).
  { intros fuel. rewrite get_article_ids_unfold. cbn zeta. fold p.
    cbn [length]. rewrite Hr. reflexivity. }
  assert (Hsafe : forall fuel ids,
    fst (paginate esearch fuel total total st0 [p]) = Ret ids ->
    Z.of_nat (length ids) = total).
  { intros fuel ids Hret.
    destruct (paginate_safe total total (unbounded_inv total) _ Hstep fuel st0 [p] HI)
      as [Hrunning | (st' & Hret' & (_ & Hlen & Hle) & Hexit)].
    - congruence.
    - rewrite Hret in Hret'. injection Hret' as ->. lia. }
  split.
  - intros fuel ids. rewrite Hrun. apply Hsafe.
  - intros Hprog.
    exists (Z.to_nat (Z.min total total - Z.of_nat (length ids0))).
    intros fuel Hfuel. rewrite Hrun.
    pose proof (paginate_returns total total (unbounded_inv total) _ Hstep
                  fuel st0 [p] Hprog HI Hfuel) as Hnot.
    destruct (fst (paginate esearch fuel total total st0 [p])) as [ids|e|] eqn:E.
    + exists ids. split; [done|]. by apply (Hsafe fuel).
    + destruct (paginate_safe total total (unbounded_inv total) _ Hstep fuel st0 [p] HI)
        as [Hrunning | (st' & Hret' & _)]; congruence.
    + done.
Qed.



Lemma reported_from_snoc sent : forall k p,
  reported_from esearch k (sent ++ [p]) =
  reported_from esearch k sent + reported (esearch (k + length sent) p).
Proof.
  induction sent as [|q sent IH]; intros k p; cbn.
  - rewrite Nat.add_0_r. lia.
  - rewrite IH. replace (S k + length sent)%nat with (k + S (length sent))%nat by lia.
    lia.
Qed.

Lemma offsets_snoc sent p :
  (1 <= length sent)%nat ->
  offsets_follow_reports esearch sent ->
  p !! "retstart" = Some (VInt (reported_from esearch 0 sent)) ->
  offsets_follow_reports esearch (sent ++ [p]).
Proof.
  intros Hlen Hoff Hp k q Hk. unfold reported_before.
  destruct (decide (S k < length sent)%nat) as [Hlt|Hge].
  - rewrite lookup_app_l in Hk by done.
    rewrite take_app_le by lia. by apply Hoff.
  - assert (S k = length sent) as Heq.
    { apply lookup_lt_Some in Hk. rewrite length_app in Hk. cbn in Hk. lia. }
    rewrite Heq in Hk |- *.
    rewrite lookup_app_r, Nat.sub_diag in Hk by done. injection Hk as <-.
    rewrite take_app_le, firstn_all by lia. exact Hp.
Qed.

Lemma paginate_offsets (total max_results : Z) fuel : forall st sent,
  (1 <= length sent)%nat ->
  retrieved_count st = reported_from esearch 0 sent ->
  offsets_follow_reports esearch sent ->
  offsets_follow_reports esearch (snd (paginate esearch fuel total max_results st sent)).
Proof.
  induction fuel as [|fuel IH]; intros st sent Hlen Hret Hoff;
    rewrite paginate_unfold; destruct (_ && _); cbn; try exact Hoff.
  rewrite next_page_unfold.
  destruct (getitem_int (page_parameters st) "retmax") as [requested|e|];
    cbn; try exact Hoff.
  set (p := request max_results st requested).
  assert (Hoff' : offsets_follow_reports esearch (sent ++ [p])).
  { apply offsets_snoc; [done | done |].
    unfold p. by rewrite request_retstart, Hret. }
  destruct (esearch (length sent) p) as [response|e] eqn:Hr; cbn; try exact Hoff'.
  destruct (get_idlist response) as [listed|e|]; cbn; try exact Hoff'.
  destruct (get_retmax response) as [n|e|] eqn:Hn; cbn; try exact Hoff'.
  apply IH; [rewrite length_app; cbn; lia | | exact Hoff'].
  cbn. rewrite reported_from_snoc, Hret. cbn. rewrite Hr. cbn. by rewrite Hn.
Qed.

(** C5. Whatever the source answers and however the run ends, the
    dictionary of every dispatch after the first carries as ["retstart"]
    the sum of the [retmax] values reported in the replies to all the
    dispatches before it. *)
Theorem C5_retstart_is_sum_of_reported_retmax (fuel : nat) (self : client)
    (query : string) (max_results : Z) (k : nat) (p : gmap string value) :
  snd (get_article_ids esearch fuel self query max_results []) !! S k = Some p ->
  p !! "retstart" =
    Some (VInt (reported_before esearch
                  (snd (get_article_ids esearch fuel self query max_results []))
                  (S k))).
Proof.
  revert k p. change (offsets_follow_reports esearch
    (snd (get_article_ids esearch fuel self query max_results []))).
  rewrite get_article_ids_unfold. cbn zeta.
  set (p0 := first_request self query max_results). cbn [length app].
  assert (Hbase : offsets_follow_reports esearch [p0]) by (intros k p Hk; discriminate).
  destruct (esearch 0 p0) as [response|e] eqn:Hr; [|exact Hbase].
  destruct (get_idlist response) as [listed|e|]; cbn; try exact Hbase.
  destruct (get_count response) as [total|e|]; cbn; try exact Hbase.
  destruct (get_retmax response) as [n|e|] eqn:Hn; cbn; try exact Hbase.
  apply paginate_offsets; [cbn; lia | | exact Hbase].
  cbn. rewrite Hr. cbn. rewrite Hn. lia.
Qed.

End PaginatorFacts.



Lemma catalogue_faithful ids : faithful (catalogue ids) (Z.of_nat (length ids)).
Proof. intros k p. unfold catalogue. eexists. reflexivity. Qed.

Lemma catalogue_honours_retmax ids : honours_retmax (catalogue ids).
Proof.
  intros k p requested Hp H0. unfold catalogue. cbn. rewrite Hp.
  destruct (Z.ltb_spec requested 0); [lia|].
  rewrite length_take. lia.
Qed.

Lemma catalogue_within_total ids : within_total (catalogue ids) (Z.of_nat (length ids)).
Proof.
  intros k p Hs. unfold catalogue. cbn.
  rewrite length_take, length_drop.
  destruct (Z.le_gt_cases 0 (requested_retstart p)); lia.
Qed.

Lemma catalogue_advancing ids : advancing (catalogue ids) (Z.of_nat (length ids)).
Proof.
  intros k p response n [= <-] [= <-]. split; [lia|].
  intros Hs Hm. rewrite length_take, length_drop.
  set (size := match p !! "retmax" with
               | Some (VInt z) => if z <? 0 then 2 else z
               | _ => 20
               end).
  assert (0 < size); [|clearbody size; lia].
  unfold size. destruct (p !! "retmax") as [[| |z| | | |]|]; try lia.
  destruct (Z.ltb_spec z 0); [lia|].
  assert (z <> 0) by congruence. lia.
Qed.

Lemma small_pages_faithful ids : faithful (small_pages ids) (Z.of_nat (length ids)).
Proof. intros k p. unfold small_pages. eexists. reflexivity. Qed.

Lemma small_pages_honours_retmax ids : honours_retmax (small_pages ids).
Proof.
  intros k p requested Hp H0. unfold small_pages. cbn. rewrite Hp.
  destruct (Z.ltb_spec requested 0); [lia|].
  rewrite length_take. lia.
Qed.

Lemma small_pages_advancing ids : advancing (small_pages ids) (Z.of_nat (length ids)).
Proof.
  intros k p response n [= <-] [= <-]. split; [lia|].
  intros Hs Hm. rewrite length_take, length_drop.
  set (size := match p !! "retmax" with
               | Some (VInt z) => if z <? 0 then 2 else Z.min z 2
               | _ => 2
               end).
  assert (0 < size); [|clearbody size; lia].
  unfold size. destruct (p !! "retmax") as [[| |z| | | |]|]; try lia.
  destruct (Z.ltb_spec z 0); [lia|].
  assert (z <> 0) by congruence. lia.
Qed.

Lemma always_two_faithful : faithful always_two 5.
Proof. intros k p. by exists ["21"; "22"]. Qed.

(** C1 on a source of five identifiers that serves two a page, asked for
    three: a second dictionary is dispatched for the third. *)
Lemma C1_search_ids_bounds_witness :
  length (snd (get_article_ids (small_pages five_ids) 1 some_client "cancer" 3 []))
    = 2%nat /\
  (forall fuel ids,
     fst (get_article_ids (small_pages five_ids) fuel some_client "cancer" 3 [])
       = Ret ids ->
     Z.of_nat (length ids) <= 3 /\ Z.min 3 5 <= Z.of_nat (length ids)) /\
  exists enough : nat, forall fuel, (enough <= fuel)%nat ->
  exists ids,
    fst (get_article_ids (small_pages five_ids) fuel some_client "cancer" 3 [])
      = Ret ids /\
    Z.of_nat (length ids) <= 3 /\
    Z.min 3 5 <= Z.of_nat (length ids).
Proof.
  split; [reflexivity|].
  destruct (C1_search_ids_bounds (small_pages five_ids) 5 some_client "cancer" 3)
    as [Hsafe Hreturns].
  - lia.
  - exact (small_pages_faithful five_ids).
  - exact (small_pages_honours_retmax five_ids).
  - split; [exact Hsafe|]. apply Hreturns. exact (small_pages_advancing five_ids).
Defined.

(** C1 as stated fails: the pages of [always_two] are well formed and
    report the same total, but hold two identifiers where the second
    dictionary asks for one; asked for three, the search returns four. *)
Lemma C1_larger_pages_exceed_max_results :
  faithful always_two 5 /\
  (snd (get_article_ids always_two 1 some_client "cancer" 3 []) !! 1%nat
     ≫= requested_retmax) = Some 1 /\
  fst (get_article_ids always_two 1 some_client "cancer" 3 []) =
    Ret ["21"; "22"; "21"; "22"] /\
  3 < Z.of_nat (length ["21"; "22"; "21"; "22"]).
Proof.
  split; [exact always_two_faithful|]. split; [reflexivity|].
  split; [reflexivity|]. cbn. lia.
Qed.

(** C2 on a catalogue of five identifiers, served two a page over three
    dispatches. *)
Lemma C2_unbounded_returns_total_witness :
  length (snd (get_article_ids (catalogue five_ids) 2
                 (__init__ "my_tool" "my_email@example.com" None "pmc") "cancer" (-1) []))
    = 3%nat /\
  (forall fuel ids,
     fst (get_article_ids (catalogue five_ids) fuel
            (__init__ "my_tool" "my_email@example.com" None "pmc") "cancer" (-1) [])
       = Ret ids ->
     Z.of_nat (length ids) = 5) /\
  exists enough : nat, forall fuel, (enough <= fuel)%nat ->
  exists ids,
    fst (get_article_ids (catalogue five_ids) fuel
           (__init__ "my_tool" "my_email@example.com" None "pmc") "cancer" (-1) [])
      = Ret ids /\
    Z.of_nat (length ids) = 5.
Proof.
  split; [reflexivity|].
  destruct (C2_unbounded_returns_total (catalogue five_ids) 5
              "my_tool" "my_email@example.com" None "pmc" "cancer")
    as [Hsafe Hreturns].
  - lia.
  - exact (catalogue_faithful five_ids).
  - exact (catalogue_within_total five_ids).
  - split; [exact Hsafe|]. apply Hreturns. exact (catalogue_advancing five_ids).
Defined.

(** C2 as stated fails: [always_two] reports the stable total 5 and, on
    every page, the [retmax] 2 of the two identifiers it lists; the
    unbounded search stops at the third page, with six identifiers. *)
Lemma C2_last_page_past_the_total :
  faithful always_two 5 /\
  fst (get_article_ids always_two 2 some_client "cancer" (-1) []) =
    Ret ["21"; "22"; "21"; "22"; "21"; "22"] /\
  Z.of_nat (length ["21"; "22"; "21"; "22"; "21"; "22"]) <> 5.
Proof.
  split; [exact always_two_faithful|]. split; [reflexivity|]. cbn. lia.
Qed.


(** C5 on the second dispatch of an unbounded search: the request carried
    [retmax = -1], the page reported 2, and the offset sent is 2. *)
Lemma C5_retstart_is_sum_of_reported_retmax_witness :
  snd (get_article_ids (catalogue five_ids) 1 some_client "cancer" (-1) [])
    !! 1%nat = Some second_request /\
  second_request !! "retstart" =
    Some (VInt (reported_before (catalogue five_ids)
                  (snd (get_article_ids (catalogue five_ids) 1 some_client
                          "cancer" (-1) [])) 1)).
Proof.
  split; [vm_compute; reflexivity|].
  apply (C5_retstart_is_sum_of_reported_retmax (catalogue five_ids) 1 some_client
           "cancer" (-1) 0 second_request).
  vm_compute. reflexivity.
Defined.

(** ** The open-access resolver *)

Section XmlFacts.

Lemma matches_spec t predicate e :
  matches t predicate e = true <->
  tag e = t /\
  match predicate with
  | None => True
  | Some (k, v) => attrib e !! k = Some v
  end.
Proof.
  unfold matches. rewrite andb_true_iff, String.eqb_eq.
  destruct predicate as [[k v]|]; [rewrite bool_decide_eq_true|]; tauto.
Qed.

Lemma head_filter_Some {A : Type} (f : A -> bool) (l : list A) (x : A) :
  head (List.filter f l) = Some x <->
  exists before after,
    l = before ++ x :: after /\ f x = true /\ forall y, y ∈ before -> f y = false.
Proof.
  induction l as [|a l IH]; cbn.
  - split; [discriminate|]. intros (before & after & H & _). by destruct before.
  - destruct (f a) eqn:Ha; cbn.
    + split.
      * intros [= ->]. exists [], l. split; [done|]. split; [done|].
        intros y Hy. by apply elem_of_nil in Hy.
      * intros (before & after & H & Hx & Hb). destruct before as [|b before].
        -- by injection H as -> _.
        -- injection H as -> _. rewrite Hb in Ha; [done|]. apply elem_of_cons; auto.
    + rewrite IH. split.
      * intros (before & after & -> & Hx & Hb). exists (a :: before), after.
        split; [done|]. split; [done|]. intros y [->|Hy]%elem_of_cons; auto.
      * intros (before & after & H & Hx & Hb). destruct before as [|b before].
        -- injection H as -> _. congruence.
        -- injection H as -> ->. exists before, after. split; [done|]. split; [done|].
           intros y Hy. apply Hb, elem_of_cons. auto.
Qed.

Lemma head_filter_None {A : Type} (f : A -> bool) (l : list A) :
  head (List.filter f l) = None <-> forall y, y ∈ l -> f y = false.
Proof.
  induction l as [|a l IH]; cbn.
  - split; [|done]. intros _ y Hy. by apply elem_of_nil in Hy.
  - destruct (f a) eqn:Ha; cbn.
    + split; [discriminate|]. intros H. rewrite H in Ha; [done|]. apply elem_of_cons; auto.
    + rewrite IH. split.
      * intros H y [->|Hy]%elem_of_cons; auto.
      * intros H y Hy. apply H, elem_of_cons. auto.
Qed.

Lemma find_one_step e s : find e [s] = head (select s e).
Proof. unfold find, findall. cbn. by rewrite app_nil_r. Qed.

Lemma find_link_Some record fmt link :
  find record (PMC.link_path fmt) = Some link <-> first_link_of record fmt link.
Proof.
  unfold PMC.link_path. rewrite find_one_step. cbn. rewrite head_filter_Some.
  unfold first_link_of. split.
  - intros (before & after & H & Hm & Hb). exists before, after.
    apply matches_spec in Hm as [Ht Ha]. repeat split; try done.
    intros e He Hc. specialize (Hb e He).
    assert (matches "link" (Some ("format", fmt)) e = true) by (by apply matches_spec).
    congruence.
  - intros (before & after & H & Ht & Ha & Hb). exists before, after.
    split; [done|]. split; [by apply matches_spec|].
    intros e He. destruct (matches "link" (Some ("format", fmt)) e) eqn:Hm; [|done].
    apply matches_spec in Hm. by destruct (Hb e He).
Qed.


Lemma find_error_Some root :
  is_Some (find root [Child "error" None]) <-> has_error root.
Proof.
  rewrite find_one_step. cbn. unfold has_error. split.
  - intros [e He]. apply head_filter_Some in He as (before & after & H & Hm & _).
    exists e. split; [rewrite H; apply elem_of_app; right; apply elem_of_cons; auto|].
    by apply matches_spec in Hm as [? _].
  - intros (e & He & Ht).
    destruct (head (List.filter (matches "error" None) (children root))) eqn:E; [eauto|].
    rewrite head_filter_None in E. specialize (E e He).
    assert (matches "error" None e = true) by (by apply matches_spec). congruence.
Qed.

Lemma find_record_Some root record :
  find root [Descendant "record" None] = Some record <-> first_record_of root record.
Proof.
  rewrite find_one_step. cbn. rewrite head_filter_Some. unfold first_record_of. split.
  - intros (before & after & H & Hm & Hb). exists before, after.
    apply matches_spec in Hm as [Ht _]. repeat split; try done.
    intros e He Hc. specialize (Hb e He).
    assert (matches "record" None e = true) by (by apply matches_spec). congruence.
  - intros (before & after & H & Ht & Hb). exists before, after.
    split; [done|]. split; [by apply matches_spec|].
    intros e He. destruct (matches "record" None e) eqn:Hm; [|done].
    apply matches_spec in Hm as [? _]. by destruct (Hb e He).
Qed.

Lemma find_record_None root :
  find root [Descendant "record" None] = None <-> ~ has_record root.
Proof.
  rewrite find_one_step. cbn. rewrite head_filter_None. unfold has_record. split.
  - intros H (e & He & Ht). specialize (H e He).
    assert (matches "record" None e = true) by (by apply matches_spec). congruence.
  - intros H e He. destruct (matches "record" None e) eqn:Hm; [|done].
    apply matches_spec in Hm as [? _]. destruct H. by exists e.
Qed.

End XmlFacts.

Section ResolverFacts.

Import PMC.

Variable fromstring : string -> completed Element.
Variable oa_lookup : gmap string value -> completed string.

(** A [PMC] client is an open-access client. *)
Lemma init_db tool email api_key :
  parameters (PMC.__init__ tool email api_key) !! "db" = Some (VStr "pmc").
Proof.
  unfold PMC.__init__, PubMedClientBase.__init__. cbn.
  destruct api_key; by simplify_map_eq.
Qed.

(** The resolver on an open-access client whose dispatch returned a body
    that parses. *)
Lemma resolver_parsed self article_id accepted_formats res root :
  parameters self !! "db" = Some (VStr "pmc") ->
  oa_lookup (oa_request self article_id) = Returned res ->
  fromstring res = Returned root ->
  get_article_download_url fromstring oa_lookup self
    article_id accepted_formats =
  match find root [Child "error" None] with
  | Some _ => Ret None
  | None =>
      first_accepted_link (find root [Descendant "record" None]) accepted_formats
  end.
Proof.
  intros Hdb Hres Hroot. unfold get_article_download_url. rewrite Hdb.
  change (negb (is_str (VStr "pmc") "pmc")) with false. cbv iota.
  fold (oa_request self article_id). rewrite Hres.
  cbn [run mbind outcome_bind Py.bind]. unfold extract_xml. by rewrite Hroot.
Qed.

Lemma has_quote_false accepted_format :
  has_quote accepted_format = false <-> quote_free accepted_format.
Proof.
  unfold has_quote, quote_free.
  rewrite <- not_true_iff_false, existsb_exists. split.
  - intros H Hin. apply H. exists "'"%char.
    split; [by apply list_elem_of_In | apply Ascii.eqb_refl].
  - intros H (c & Hin & Heq). apply Ascii.eqb_eq in Heq as <-.
    apply H. by apply list_elem_of_In.
Qed.

Lemma find_link_quote_free node accepted_format :
  quote_free accepted_format ->
  find_link node accepted_format = Ret (find node (link_path accepted_format)).
Proof. intros Hq. unfold find_link. by rewrite (proj2 (has_quote_false _) Hq). Qed.





Lemma first_accepted_link_no_record accepted_formats :
  first_accepted_link None accepted_formats =
  match accepted_formats with
  | [] => Ret None
  | _ :: _ => Raise AttributeError
  end.
Proof. by destruct accepted_formats. Qed.



(** X17. The resolver of [pymed/api.py] is the one of [PMC] with the formats
    [pdf] and [tgz], in this order: on every client, identifier and
    response the two give the same result or raise the same exception. *)
Lemma api_resolver_is_pdf_then_tgz self article_id :
  Api.get_article_download_url fromstring oa_lookup self article_id =
  get_article_download_url fromstring oa_lookup self article_id ["pdf"; "tgz"].
Proof.
  unfold Api.get_article_download_url, get_article_download_url.
  destruct (parameters self !! "db") as [db|]; [|reflexivity].
  destruct (negb (is_str db "pmc")); [reflexivity|].
  destruct (run _) as [res| |]; cbn; try reflexivity.
  destruct (extract_xml fromstring res) as [root|]; [|reflexivity].
  destruct (find root [Child "error" None]); [reflexivity|].
  destruct (find root [Descendant "record" None]) as [record|]; [|reflexivity].
  cbn. unfold Api.href_of.
  destruct (find record (link_path "pdf")); [reflexivity|].
  destruct (find record (link_path "tgz")); reflexivity.
Qed.

(** On the article client of [pymedB] the resolver stops at the database
    guard. *)
Lemma pubmed_client_resolver_raises tool email api_key article_id accepted_formats :
  PubMed.get_article_download_url fromstring oa_lookup
    (PubMed.__init__ tool email api_key) article_id accepted_formats =
  Raise (Exception (guard_message (VStr "pubmed"))).
Proof.
  unfold PubMed.get_article_download_url, get_article_download_url.
  assert (parameters (PubMed.__init__ tool email api_key) !! "db" = Some (VStr "pubmed"))
    as ->; [|reflexivity].
  unfold PubMed.__init__, PubMedClientBase.__init__. cbn.
  destruct api_key; by simplify_map_eq.
Qed.

End ResolverFacts.


Lemma pdf_tgz_quote_free : Forall PMC.quote_free ["pdf"; "tgz"].
Proof.
  repeat constructor; unfold PMC.quote_free; cbn; intros H;
    repeat (apply elem_of_cons in H as [H|H]; [discriminate|]);
    by apply elem_of_nil in H.
Qed.




(** ** Entity records *)

Section ArticleFacts.

Import PubMedArticle.

Variable tolerant : bool.
Variable int_str : string -> completed Z.

Lemma int_of_string_one : int_of_string int_str "1" = Ret 1.
Proof. reflexivity. Qed.

Lemma int_of_terminates x : int_of int_str x <> Running.
Proof.
  destruct x as [s|]; cbn; [|discriminate].
  unfold int_of_string.
  destruct (String.list_ascii_of_string s) as [|c rest];
    [by destruct (int_str s)|].
  destruct (decimal 0 (c :: rest)); [|by destruct (int_str s)].
  destruct (_ <=? _)%nat; [discriminate | by destruct (int_str s)].
Qed.

Lemma datetime_date_inv y m d dt :
  datetime_date y m d = Ret dt -> dt = {| year := y; month := m; day := d |}.
Proof.
  unfold datetime_date. destruct (negb _); [discriminate|].
  destruct (_ && _); congruence.
Qed.

Lemma datetime_date_terminates y m d : datetime_date y m d <> Running.
Proof.
  unfold datetime_date. destruct (negb _); [discriminate|]. by destruct (_ && _).
Qed.

Lemma get_content_terminates element path default :
  Helpers.get_content tolerant element path default <> Running.
Proof.
  unfold Helpers.get_content. destruct element as [e|].
  - by destruct (find e path).
  - by destruct tolerant.
Qed.

(** The [try] block on a record without the date element: reading the year
    fails, whatever the helper does with the missing subtree. *)
Lemma parse_without_node xml_element :
  pubmed_date_of xml_element = None ->
  exists e, parse_publication_date tolerant int_str xml_element = Raise e.
Proof.
  unfold pubmed_date_of, parse_publication_date. intros ->. cbn.
  destruct tolerant; cbn; eauto.
Qed.

(** The [try] block on a record with the date element, in terms of the
    three components. *)
Lemma parse_with_node xml_element node :
  pubmed_date_of xml_element = Some node ->
  parse_publication_date tolerant int_str xml_element =
  (publication_year ← int_of int_str (text_or None node "Year");
   publication_month ← int_of int_str (text_or (Some "1") node "Month");
   publication_day ← int_of int_str (text_or (Some "1") node "Day");
   made ← datetime_date publication_year publication_month publication_day;
   mret (Some made)).
Proof.
  unfold pubmed_date_of, parse_publication_date, text_or. intros ->.
  unfold Helpers.get_content.
  destruct (find node [Descendant "Year" None]) as [ye|];
    destruct (find node [Descendant "Month" None]) as [me|];
    destruct (find node [Descendant "Day" None]) as [de|]; reflexivity.
Qed.

Lemma extract_never_raises xml_element :
  exists r, _extract_publication_date tolerant int_str xml_element = Ret r.
Proof.
  unfold _extract_publication_date.
  destruct (parse_publication_date tolerant int_str xml_element) as [r|e|] eqn:E; cbn; eauto.
  exfalso. revert E. unfold parse_publication_date.
  destruct (Helpers.get_content _ _ [Descendant "Year" None] _) as [y| |] eqn:Hy;
    cbn; try discriminate; [|by apply get_content_terminates in Hy].
  destruct (int_of int_str y) as [py| |] eqn:Hpy; cbn; try discriminate;
    [|by apply int_of_terminates in Hpy].
  destruct (Helpers.get_content _ _ [Descendant "Month" None] _) as [m| |] eqn:Hm;
    cbn; try discriminate; [|by apply get_content_terminates in Hm].
  destruct (int_of int_str m) as [pm| |] eqn:Hpm; cbn; try discriminate;
    [|by apply int_of_terminates in Hpm].
  destruct (Helpers.get_content _ _ [Descendant "Day" None] _) as [d| |] eqn:Hd;
    cbn; try discriminate; [|by apply get_content_terminates in Hd].
  destruct (int_of int_str d) as [pd| |] eqn:Hpd; cbn; try discriminate;
    [|by apply int_of_terminates in Hpd].
  destruct (datetime_date py pm pd) eqn:Hdt; cbn; try discriminate.
  by apply datetime_date_terminates in Hdt.
Qed.

Lemma extract_with_node xml_element node :
  pubmed_date_of xml_element = Some node ->
  _extract_publication_date tolerant int_str xml_element =
  match int_of int_str (text_or None node "Year"),
        int_of int_str (text_or (Some "1") node "Month"),
        int_of int_str (text_or (Some "1") node "Day") with
  | Ret y, Ret m, Ret d =>
      match datetime_date y m d with
      | Ret made => Ret (Some made)
      | _ => Ret None
      end
  | _, _, _ => Ret None
  end.
Proof.
  intros Hnode. unfold _extract_publication_date.
  rewrite (parse_with_node _ _ Hnode).
  destruct (int_of int_str (text_or None node "Year")) as [y| |] eqn:Hy; cbn;
    try reflexivity; [|by apply int_of_terminates in Hy].
  destruct (int_of int_str (text_or (Some "1") node "Month")) as [m| |] eqn:Hm; cbn;
    try reflexivity; [|by apply int_of_terminates in Hm].
  destruct (int_of int_str (text_or (Some "1") node "Day")) as [d| |] eqn:Hd; cbn;
    try reflexivity; [|by apply int_of_terminates in Hd].
  destruct (datetime_date y m d) eqn:Hdt; cbn; try reflexivity.
  by apply datetime_date_terminates in Hdt.
Qed.

Lemma get_content_of_element e path default :
  Helpers.get_content tolerant (Some e) path default =
  Ret (match find e path with
       | Some found => text found
       | None => default
       end).
Proof. unfold Helpers.get_content. by destruct (find e path). Qed.

Lemma each_returns {A B : Type} (f : A -> outcome B) (l : list A) :
  (forall a, exists b, f a = Ret b) -> exists bs, each f l = Ret bs.
Proof.
  intros Hf. induction l as [|a l [bs IH]]; cbn; [eauto|].
  destruct (Hf a) as [b ->]. cbn. rewrite IH. cbn. eauto.
Qed.

Lemma author_dict_returns author : exists v, author_dict tolerant author = Ret v.
Proof.
  unfold author_dict. rewrite !get_content_of_element. cbn. eauto.
Qed.

(** Construction from an XML element returns an instance, and its
    [publication_date] slot holds what [_extract_publication_date] gave. *)
Lemma init_from_xml_returns xml_element kwargs :
  exists self r,
    __init__ tolerant int_str (Some xml_element) kwargs = Ret self /\
    _extract_publication_date tolerant int_str xml_element = Ret r /\
    self !! "publication_date" = Some (from_option VDate VNone r).
Proof.
  destruct (extract_never_raises xml_element) as [r Hr].
  destruct (each_returns (author_dict tolerant)
              (findall xml_element [Descendant "Author" None]) author_dict_returns)
    as [authors Hauthors].
  unfold __init__, _initializeFromXML, _extract_pubmed_id, _extract_title,
    _extract_journal, _extract_abstract, _extract_conclusions, _extract_methods,
    _extract_results, _extract_copyrights, _extract_doi, _extract_authors.
  rewrite !get_content_of_element, Hr, Hauthors. cbn.
  eexists _, r. split; [reflexivity|]. split; [reflexivity|].
  by simplify_map_eq.
Qed.

(** C7. [_extract_publication_date] always returns, and construction from
    an XML element stores what it returns in the [publication_date] slot.
    It returns [None] when the record has no [pubmed] date element or that
    element has no [Year]; the date with month 1 and day 1 when only a year
    is given, which [int] reads as a number in range; the date built from
    the three components, month and day read as ["1"] when absent, when
    [int] reads them and they form a calendar date; and a date is returned
    only in that last case, so that every other input gives [None]. What
    [int] makes of a text that is not a plain number is the library's
    matter: the statement holds whatever that is. *)
Theorem C7_publication_date_fails_softly (xml_element : Element) :
  (exists r, _extract_publication_date tolerant int_str xml_element = Ret r) /\
  (forall kwargs, exists self r,
     __init__ tolerant int_str (Some xml_element) kwargs = Ret self /\
     _extract_publication_date tolerant int_str xml_element = Ret r /\
     self !! "publication_date" = Some (from_option VDate VNone r)) /\
  (pubmed_date_of xml_element = None ->
   _extract_publication_date tolerant int_str xml_element = Ret None) /\
  (forall node,
     pubmed_date_of xml_element = Some node ->
     (find node [Descendant "Year" None] = None ->
      _extract_publication_date tolerant int_str xml_element = Ret None) /\
     (forall y,
        int_of int_str (text_or None node "Year") = Ret y -> 1 <= y <= 9999 ->
        find node [Descendant "Month" None] = None ->
        find node [Descendant "Day" None] = None ->
        _extract_publication_date tolerant int_str xml_element =
          Ret (Some {| year := y; month := 1; day := 1 |})) /\
     (forall y m d made,
        int_of int_str (text_or None node "Year") = Ret y ->
        int_of int_str (text_or (Some "1") node "Month") = Ret m ->
        int_of int_str (text_or (Some "1") node "Day") = Ret d ->
        datetime_date y m d = Ret made ->
        _extract_publication_date tolerant int_str xml_element = Ret (Some made))) /\
  (forall made,
     _extract_publication_date tolerant int_str xml_element = Ret (Some made) ->
     exists node,
       pubmed_date_of xml_element = Some node /\
       int_of int_str (text_or None node "Year") = Ret (year made) /\
       int_of int_str (text_or (Some "1") node "Month") = Ret (month made) /\
       int_of int_str (text_or (Some "1") node "Day") = Ret (day made) /\
       datetime_date (year made) (month made) (day made) = Ret made).
Proof.
  split; [apply extract_never_raises|].
  split; [intros kwargs; apply init_from_xml_returns|]. split; [|split].
  - intros Hnone. unfold _extract_publication_date.
    by destruct (parse_without_node _ Hnone) as [e ->].
  - intros node Hnode. rewrite (extract_with_node _ _ Hnode). split; [|split].
    + intros Hyear. unfold text_or at 1. by rewrite Hyear.
    + intros y Hy Hrange Hmonth Hday. rewrite Hy.
      unfold text_or. rewrite Hmonth, Hday. cbn [int_of]. rewrite int_of_string_one.
      unfold datetime_date, c_int.
      replace (-2147483648 <=? y) with true by (symmetry; apply Z.leb_le; lia).
      replace (y <=? 2147483647) with true by (symmetry; apply Z.leb_le; lia).
      replace (1 <=? y) with true by (symmetry; apply Z.leb_le; lia).
      replace (y <=? 9999) with true by (symmetry; apply Z.leb_le; lia).
      cbn. unfold days_in_month. cbn. reflexivity.
    + intros y m d made -> -> -> ->. reflexivity.
  - intros made Hmade.
    destruct (pubmed_date_of xml_element) as [node|] eqn:Hnode.
    + exists node. split; [done|]. rewrite (extract_with_node _ _ Hnode) in Hmade.
      destruct (int_of int_str (text_or None node "Year")) as [y| |]; try discriminate.
      destruct (int_of int_str (text_or (Some "1") node "Month")) as [m| |]; try discriminate.
      destruct (int_of int_str (text_or (Some "1") node "Day")) as [d| |]; try discriminate.
      destruct (datetime_date y m d) as [dt| |] eqn:Hdt; try discriminate.
      injection Hmade as ->. apply datetime_date_inv in Hdt as Heq. subst made.
      cbn. done.
    + unfold _extract_publication_date in Hmade.
      destruct (parse_without_node _ Hnode) as [e He]. rewrite He in Hmade.
      discriminate.
Qed.

End ArticleFacts.

(** C7 on a record dated 2018 without month and day, and on an empty one. *)
Lemma C7_publication_date_fails_softly_witness :
  PubMedArticle._extract_publication_date false plain_int article_of_2018 =
    Ret (Some {| year := 2018; month := 1; day := 1 |}) /\
  PubMedArticle._extract_publication_date false plain_int (Elem "PubmedArticle" ∅ None []) =
    Ret None.
Proof.
  split.
  - destruct (C7_publication_date_fails_softly false plain_int article_of_2018)
      as (_ & _ & _ & Hnode & _).
    destruct (Hnode pubmed_2018 eq_refl) as (_ & Hdefault & _).
    apply (Hdefault 2018); [reflexivity | lia | reflexivity | reflexivity].
  - destruct (C7_publication_date_fails_softly false plain_int (Elem "PubmedArticle" ∅ None []))
      as (_ & _ & Hnone & _).
    apply Hnone. reflexivity.
Defined.

Section SlotFacts.

Lemma set_slots_from_lookup slots kwargs field :
  set_slots_from slots kwargs !! field =
  if bool_decide (field ∈ slots) then Some (kwargs_get kwargs field) else None.
Proof.
  unfold set_slots_from.
  assert (forall (self : gmap string value),
    foldl (fun self field => <[field := default VNone (kwargs !! field)]> self) self slots
      !! field =
    if bool_decide (field ∈ slots) then Some (kwargs_get kwargs field)
    else self !! field) as H.
  { induction slots as [|s slots IH]; intros self; cbn; [done|].
    rewrite IH. destruct (decide (field ∈ slots)) as [Hin|Hnin].
    - rewrite !bool_decide_eq_true_2; [done | apply elem_of_cons; auto | done].
    - rewrite (bool_decide_eq_false_2 _ Hnin).
      destruct (decide (field = s)) as [->|Hne].
      + rewrite bool_decide_eq_true_2 by (apply elem_of_cons; auto).
        by rewrite lookup_insert_eq.
      + rewrite bool_decide_eq_false_2
          by (intros [?|?]%elem_of_cons; done).
        by rewrite lookup_insert_ne. }
  rewrite H. by destruct (bool_decide _).
Qed.

Lemma dict_of_slots_ext (read : string -> outcome value) (f : string -> value) slots :
  (forall key, key ∈ slots -> read key = Ret (f key)) ->
  dict_of_slots read slots = Ret ((fun key => (key, f key)) <$> slots).
Proof.
  induction slots as [|s slots IH]; intros H; cbn; [done|].
  rewrite H by (apply elem_of_cons; auto). cbn.
  rewrite IH by (intros key Hk; apply H, elem_of_cons; auto). reflexivity.
Qed.

Lemma list_to_map_slots (f : string -> value) (slots : list string) field :
  (list_to_map ((fun key => (key, f key)) <$> slots) : gmap string value) !! field =
  if bool_decide (field ∈ slots) then Some (f field) else None.
Proof.
  induction slots as [|s slots IH]; cbn; [done|].
  destruct (decide (field = s)) as [->|Hne].
  - rewrite lookup_insert_eq. by rewrite bool_decide_eq_true_2 by (apply elem_of_cons; auto).
  - rewrite lookup_insert_ne by done. rewrite IH.
    destruct (decide (field ∈ slots)).
    + by rewrite !bool_decide_eq_true_2 by (try apply elem_of_cons; auto).
    + by rewrite !bool_decide_eq_false_2 by (try intros [?|?]%elem_of_cons; done).
Qed.

(** C8. An article built from keyword arguments alone and converted with
    [toDict] gives, slot by slot and in slot order, the value supplied for
    the slot, and [None] for a slot not supplied; when exactly the slots are
    supplied, the dictionary is the keyword arguments. *)
Theorem C8_article_roundtrip (tolerant : bool) (int_str : string -> completed Z)
    (kwargs : gmap string value) :
  exists self,
    PubMedArticle.__init__ tolerant int_str None kwargs = Ret self /\
    PubMedArticle.toDict self =
      Ret ((fun field => (field, kwargs_get kwargs field)) <$> PubMedArticle.__slots__) /\
    (forall field v,
       field ∈ PubMedArticle.__slots__ -> kwargs !! field = Some v ->
       (field, v) ∈ (fun field => (field, kwargs_get kwargs field)) <$>
                      PubMedArticle.__slots__) /\
    (forall field,
       field ∈ PubMedArticle.__slots__ -> kwargs !! field = None ->
       (field, VNone) ∈ (fun field => (field, kwargs_get kwargs field)) <$>
                          PubMedArticle.__slots__) /\
    (dom kwargs = list_to_set PubMedArticle.__slots__ ->
     list_to_map ((fun field => (field, kwargs_get kwargs field)) <$>
                    PubMedArticle.__slots__) = kwargs).
Proof.
  eexists. split; [reflexivity|]. split; [|split; [|split]].
  - unfold PubMedArticle.toDict. apply dict_of_slots_ext.
    intros key Hkey. unfold get_slot. rewrite set_slots_from_lookup.
    by rewrite bool_decide_eq_true_2.
  - intros field v Hin Hv. apply list_elem_of_fmap. exists field. split; [|done].
    unfold kwargs_get. by rewrite Hv.
  - intros field Hin Hv. apply list_elem_of_fmap. exists field. split; [|done].
    unfold kwargs_get. by rewrite Hv.
  - intros Hdom. apply map_eq. intros field. rewrite list_to_map_slots.
    destruct (decide (field ∈ PubMedArticle.__slots__)) as [Hin|Hnin].
    + rewrite bool_decide_eq_true_2 by done.
      assert (field ∈ dom kwargs) as [v Hv]%elem_of_dom
        by (rewrite Hdom; by apply elem_of_list_to_set).
      unfold kwargs_get. by rewrite Hv.
    + rewrite bool_decide_eq_false_2 by done. symmetry.
      apply not_elem_of_dom. rewrite Hdom. by rewrite elem_of_list_to_set.
Qed.

(** C8 on an article given a title and a DOI. *)
Lemma C8_article_roundtrip_witness :
  exists self,
    PubMedArticle.__init__ false plain_int None title_and_doi = Ret self /\
    PubMedArticle.toDict self =
      Ret [("pubmed_id", VNone); ("title", VStr "X"); ("abstract", VNone);
           ("keywords", VNone); ("journal", VNone); ("publication_date", VNone);
           ("authors", VNone); ("methods", VNone); ("conclusions", VNone);
           ("results", VNone); ("copyrights", VNone); ("doi", VStr "10.1000/1");
           ("xml", VNone)] /\
    ("title", VStr "X") ∈
      (fun field => (field, kwargs_get title_and_doi field)) <$> PubMedArticle.__slots__.
Proof.
  destruct (C8_article_roundtrip false plain_int title_and_doi)
    as (self & Hinit & Hdict & Hsupplied & _).
  exists self. split; [exact Hinit|]. split.
  - rewrite Hdict. vm_compute. reflexivity.
  - apply Hsupplied; [|reflexivity].
    refine (bool_decide_unpack _ _). vm_compute. exact I.
Defined.

(** C10. On every book article, whatever its slots hold, [to_json] raises
    [AttributeError]: it looks [toDict] up, which is neither a method nor a
    slot of the class, while [to_dict] is a method and returns the mapping
    from every slot to its value, [None] for a slot never assigned.
    Construction from keyword arguments succeeds; construction from an XML
    element raises too, [__init__] calling [_initializeFromXML] where the
    class defines [_initialize_from_xml]. *)
Theorem C10_book_to_json_raises
    (json_dumps : list (string * value) -> completed string)
    (str_of_date : date -> string) (self : gmap string value) :
  PubMedBookArticle.to_json json_dumps str_of_date self = Raise AttributeError /\
  (("toDict" ∉ PubMedBookArticle.methods) /\
   ("toDict" ∉ PubMedBookArticle.__slots__) /\
   ("to_dict" ∈ PubMedBookArticle.methods)) /\
  PubMedBookArticle.to_dict self =
    Ret ((fun key => (key, default VNone (self !! key))) <$>
           PubMedBookArticle.__slots__) /\
  (forall tolerant kwargs,
     PubMedBookArticle.__init__ tolerant None kwargs =
       Ret (set_slots_from PubMedBookArticle.__slots__ kwargs)) /\
  (forall tolerant xml_element kwargs,
     PubMedBookArticle.__init__ tolerant (Some xml_element) kwargs =
       Raise AttributeError).
Proof.
  split; [reflexivity|].
  split; [repeat split; refine (bool_decide_unpack _ _); vm_compute; exact I|].
  split; [|split; reflexivity].
  unfold PubMedBookArticle.to_dict. apply dict_of_slots_ext.
  intros key _. unfold PubMedBookArticle.hasattr, get_slot.
  destruct (self !! key) as [v|] eqn:Hv.
  - by rewrite bool_decide_eq_true_2 by eauto.
  - by rewrite bool_decide_eq_false_2 by (intros [? ?]; done).
Qed.

End SlotFacts.

(** ** The rate limiter *)

Section LimiterFacts.

Import PubMedClientBase.

Variable now : nat -> Z.

Lemma busy_wait_admits fuel : forall self reads self' reads',
  busy_wait now fuel self reads = Ret (self', reads') ->
  Z.of_nat (length (_requestsMade self')) <= _rateLimit self' /\
  _rateLimit self' = _rateLimit self.
Proof.
  induction fuel as [|fuel IH]; intros self reads self' reads'; cbn; [discriminate|].
  unfold _exceeded_rate_limit.
  destruct (recent now reads (_requestsMade self)) as [kept reads1]. cbn.
  destruct (Z.ltb_spec (_rateLimit self) (Z.of_nat (length kept))) as [Hlt|Hle].
  - intros Hw. apply IH in Hw as [H1 H2]. by split.
  - intros [= <- <-]. cbn. by split.
Qed.

(** What the limiter does keep: after a dispatch that went through, at most
    one timestamp more than the limit is tracked. *)
Lemma get_tracks_at_most_one_above_limit fuel requests_get self reads url
    parameters output payload self' parameters' reads' :
  _get now fuel requests_get self reads url parameters output =
    Ret (payload, self', parameters', reads') ->
  Z.of_nat (length (_requestsMade self')) <= _rateLimit self + 1.
Proof.
  unfold _get.
  destruct (busy_wait now fuel self reads) as [[self1 reads1]| |] eqn:Hw;
    cbn; try discriminate.
  apply busy_wait_admits in Hw as [Hlen Hlim].
  destruct (status_ok _); [|discriminate].
  destruct (String.eqb output "json").
  - destruct (body_json _); cbn; [|discriminate].
    intros [= _ <- _ _]. cbn. rewrite length_app. cbn. lia.
  - intros [= _ <- _ _]. cbn. rewrite length_app. cbn. lia.
Qed.

End LimiterFacts.

(** C4 fails on the code. Four calls of [_get] on a new client, with a
    clock that moves a tenth of a second per reading: all four are admitted
    (one poll each), their timestamps 0 s, 0.2 s, 0.5 s and 0.9 s all lie in
    the one-second window that ends at the last one, and 4 exceeds the limit
    of 3. *)
Theorem C4_fourth_dispatch_in_the_same_second :
  dispatch 1 4 (PubMedClientBase.__init__ "my_tool" "my_email@example.com" None "pubmed")
    0 =
    Ret (set_requestsMade
           (PubMedClientBase.__init__ "my_tool" "my_email@example.com" None "pubmed")
           [0; 200000; 500000; 900000], 10%nat) /\
  in_window 900000 [0; 200000; 500000; 900000] = [0; 200000; 500000; 900000] /\
  _rateLimit (PubMedClientBase.__init__ "my_tool" "my_email@example.com" None "pubmed")
    < Z.of_nat (length (in_window 900000 [0; 200000; 500000; 900000])).
Proof.
  split; [vm_compute; reflexivity|]. split; [reflexivity|]. vm_compute. reflexivity.
Qed.

(** ** Traces of a search *)

Section TraceFacts.

Variable esearch : nat -> gmap string value -> completed json.

Lemma listed_from_snoc sent : forall k p,
  listed_from esearch k (sent ++ [p]) =
  listed_from esearch k sent ++ listed (esearch (k + length sent)%nat p).
Proof.
  induction sent as [|q sent IH]; intros k p; cbn.
  - rewrite Nat.add_0_r, app_nil_r. reflexivity.
  - rewrite IH, app_assoc. do 3 f_equal. lia.
Qed.

(** The loop under an invariant of its state and of the dictionaries
    dispatched so far, which every completed iteration keeps. *)
Section LoopTrace.

Variables (total max_results : Z).
Variable Inv : page_state -> list (gmap string value) -> Prop.

Hypothesis has_retmax : forall st sent,
  Inv st sent -> exists requested, page_parameters st !! "retmax" = Some (VInt requested).

Hypothesis keep : forall st sent requested response listed n,
  Inv st sent ->
  retrieved_count st < total -> retrieved_count st < max_results ->
  page_parameters st !! "retmax" = Some (VInt requested) ->
  esearch (length sent) (request max_results st requested) = Returned response ->
  get_idlist response = Ret listed ->
  get_retmax response = Ret n ->
  Inv {| article_ids := article_ids st ++ listed;
         page_parameters := request max_results st requested;
         retrieved_count := retrieved_count st + n |}
      (sent ++ [request max_results st requested]).

Lemma paginate_trace fuel : forall st sent,
  Inv st sent ->
  exists st' sent',
    Inv st' sent' /\
    match paginate esearch fuel total max_results st sent with
    | (Ret ids, sent'') =>
        sent'' = sent' /\ ids = article_ids st' /\
        (total <= retrieved_count st' \/ max_results <= retrieved_count st')
    | (Running, sent'') => sent'' = sent'
    | (Raise e, sent'') =>
        exists requested,
          page_parameters st' !! "retmax" = Some (VInt requested) /\
          sent'' = sent' ++ [request max_results st' requested] /\
          match esearch (length sent') (request max_results st' requested) with
          | Raised e' => e' = e
          | Returned response =>
              get_idlist response = Raise e \/ get_retmax response = Raise e
          end
    end.
Proof.
  induction fuel as [|fuel IH]; intros st sent HI; rewrite paginate_unfold;
    destruct (Z.ltb_spec (retrieved_count st) total);
    destruct (Z.ltb_spec (retrieved_count st) max_results); cbn;
    try (exists st, sent; split; [exact HI|]; repeat split; auto; lia).
  rewrite next_page_unfold.
  destruct (has_retmax st sent HI) as [requested Hrm].
  unfold getitem_int. rewrite Hrm.
  destruct (esearch (length sent) (request max_results st requested))
    as [response|e] eqn:Hreply.
  - destruct (get_idlist response) as [listed|e|] eqn:Hids; cbn;
      [| |by apply get_idlist_terminates in Hids].
    + destruct (get_retmax response) as [n|e|] eqn:Hn; cbn;
        [| |by apply get_retmax_terminates in Hn].
      * apply IH. eapply keep; eauto.
      * exists st, sent. split; [exact HI|]. exists requested.
        rewrite Hreply. auto.
    + exists st, sent. split; [exact HI|]. exists requested.
      rewrite Hreply. auto.
  - exists st, sent. split; [exact HI|]. exists requested.
    rewrite Hreply. auto.
Qed.

End LoopTrace.

Lemma first_request_term self query max_results :
  first_request self query max_results !! "term" = Some (VStr query).
Proof.
  unfold first_request. rewrite lookup_insert_ne by done.
  destruct (max_results <? 50000); by simplify_map_eq.
Qed.

Lemma first_request_static self query max_results key :
  key ∉ ["term"; "retmax"; "retstart"; "retmode"] ->
  first_request self query max_results !! key = parameters self !! key.
Proof.
  intros Hkey. unfold first_request.
  assert (key <> "term" /\ key <> "retmax" /\ key <> "retmode") as (? & ? & ?).
  { repeat split; intros ->; apply Hkey; set_solver. }
  rewrite lookup_insert_ne by done.
  destruct (max_results <? 50000); rewrite !lookup_insert_ne by done; reflexivity.
Qed.

Lemma request_static max_results st requested key :
  key ∉ ["term"; "retmax"; "retstart"; "retmode"] ->
  request max_results st requested !! key = page_parameters st !! key.
Proof.
  intros Hkey. unfold request.
  assert (key <> "retstart" /\ key <> "retmax" /\ key <> "retmode") as (? & ? & ?).
  { repeat split; intros ->; apply Hkey; set_solver. }
  destruct (_ <? _); rewrite !lookup_insert_ne by done; reflexivity.
Qed.

Lemma request_term max_results st requested :
  request max_results st requested !! "term" = page_parameters st !! "term".
Proof.
  unfold request. destruct (_ <? _); rewrite !lookup_insert_ne by done; reflexivity.
Qed.

Lemma request_retmode max_results st requested :
  request max_results st requested !! "retmode" = Some (VStr "json").
Proof. unfold request. by simplify_map_eq. Qed.

(** What a search does after its first page, under an invariant that holds
    of the state the first page leaves. *)
Lemma get_article_ids_trace (Inv : page_state -> list (gmap string value) -> Prop)
    fuel self query max_results :
  let p := first_request self query max_results in
  (forall st sent, Inv st sent ->
     exists requested, page_parameters st !! "retmax" = Some (VInt requested)) ->
  (forall response listed total n,
     esearch 0 p = Returned response ->
     get_idlist response = Ret listed ->
     get_count response = Ret total -> get_retmax response = Ret n ->
     Inv {| article_ids := listed; page_parameters := p;
            retrieved_count := n |} [p] /\
     forall st sent requested response' listed' n',
       let cap := if max_results =? -1 then total else max_results in
       Inv st sent ->
       retrieved_count st < total -> retrieved_count st < cap ->
       page_parameters st !! "retmax" = Some (VInt requested) ->
       esearch (length sent) (request cap st requested) = Returned response' ->
       get_idlist response' = Ret listed' ->
       get_retmax response' = Ret n' ->
       Inv {| article_ids := article_ids st ++ listed';
              page_parameters := request cap st requested;
              retrieved_count := retrieved_count st + n' |}
           (sent ++ [request cap st requested])) ->
  match get_article_ids esearch fuel self query max_results [] with
  | (Raise e, sent) =>
      exists before q, sent = before ++ [q] /\ fails_at esearch (length before) q e /\
        (before = [] /\ q = p \/
         exists st, Inv st before /\
           exists requested,
             page_parameters st !! "retmax" = Some (VInt requested) /\
             q = request (if max_results =? -1
                          then reported_total (esearch 0 p) else max_results)
                   st requested)
  | (o, sent) =>
      exists st, Inv st sent /\ forall ids, o = Ret ids -> ids = article_ids st
  end.
Proof.
  intros p Hrm Hinv. rewrite get_article_ids_unfold. fold p. cbn [length app].
  destruct (esearch 0 p) as [response|e] eqn:Hreply.
  2:{ exists [], p. unfold fails_at. cbn [length]. rewrite Hreply. auto. }
  destruct (get_idlist response) as [listed|e|] eqn:Hids;
    [| |by apply get_idlist_terminates in Hids].
  2:{ exists [], p. unfold fails_at. cbn [length]. rewrite Hreply. auto 6. }
  destruct (get_count response) as [total|e|] eqn:Hc;
    [| |by apply get_count_terminates in Hc].
  2:{ exists [], p. unfold fails_at. cbn [length]. rewrite Hreply. auto 6. }
  destruct (get_retmax response) as [n|e|] eqn:Hn;
    [| |by apply get_retmax_terminates in Hn].
  2:{ exists [], p. unfold fails_at. cbn [length]. rewrite Hreply. auto 6. }
  destruct (Hinv response listed total n eq_refl Hids Hc Hn) as [H0 Hkeep].
  destruct (paginate_trace total (if max_results =? -1 then total else max_results)
              Inv Hrm Hkeep fuel _ _ H0) as (st' & sent' & HI' & Hrun).
  destruct (paginate _ _ _ _ _ _) as [[ids|e|] sent''].
  - destruct Hrun as (-> & -> & _). exists st'. split; [exact HI'|]. congruence.
  - destruct Hrun as (requested & Hreq & -> & Hfail).
    exists sent', (request (if max_results =? -1 then total else max_results) st' requested).
    split; [reflexivity|]. split.
    + unfold fails_at. destruct (esearch (length sent') _); [|exact Hfail].
      destruct Hfail; auto.
    + right. exists st'. split; [exact HI'|]. exists requested. split; [exact Hreq|].
      unfold reported_total. rewrite Hc. reflexivity.
  - subst sent''. exists st'. split; [exact HI'|]. discriminate.
Qed.

(** X1. The list a search returns is the concatenation, in dispatch order,
    of the identifier lists of the replies to the dictionaries it sent:
    nothing is dropped, reordered or deduplicated. *)
Theorem get_article_ids_concatenates_pages fuel self query max_results ids sent :
  get_article_ids esearch fuel self query max_results [] = (Ret ids, sent) ->
  ids = listed_from esearch 0 sent.
Proof.
  intros Hrun.
  pose proof (get_article_ids_trace
    (fun st sent =>
       article_ids st = listed_from esearch 0 sent /\
       exists requested, page_parameters st !! "retmax" = Some (VInt requested))
    fuel self query max_results) as H.
  cbn zeta in H. rewrite Hrun in H.
  destruct H as (st & [Hids _] & Heq).
  - intros st0 sent0 [_ Hrm]. exact Hrm.
  - intros response listed0 total n Hreply Hlisted Hc Hn. split.
    + cbn [listed_from article_ids page_parameters]. unfold listed.
      rewrite Hreply, Hlisted, app_nil_r. split; [reflexivity|].
      rewrite first_request_retmax. eauto.
    + intros st0 sent0 requested response' listed' n' [Hids Hrm] _ _ Hreq Hreply'
        Hlisted' Hn'.
      cbn [article_ids page_parameters]. split.
      * rewrite listed_from_snoc, Hids. cbn [Nat.add]. unfold listed.
        by rewrite Hreply', Hlisted'.
      * rewrite (request_retmax _ _ _ Hreq). eauto.
  - rewrite (Heq ids eq_refl). exact Hids.
Qed.

(** X2. Every dictionary a search dispatches asks for a page of at most
    [min(max_results, 50000)] results, the first one for exactly that many,
    and no later one reaches past the cap from its offset: the cap is
    [max_results], or the first reply's count when [max_results] is [-1]. *)
Theorem get_article_ids_page_sizes fuel self query max_results k p :
  snd (get_article_ids esearch fuel self query max_results []) !! k = Some p ->
  exists size,
    requested_retmax p = Some size /\
    size <= Z.min max_results 50000 /\
    (k = 0%nat -> size = Z.min max_results 50000) /\
    ((1 <= k)%nat ->
     requested_retstart p + size <=
       if max_results =? -1
       then reported_total (esearch 0 (first_request self query max_results))
       else max_results).
Proof.
  set (p0 := first_request self query max_results).
  set (cap := if max_results =? -1 then reported_total (esearch 0 p0) else max_results).
  set (sized := fun (k : nat) (p : gmap string value) =>
    exists size,
      requested_retmax p = Some size /\
      size <= Z.min max_results 50000 /\
      (k = 0%nat -> size = Z.min max_results 50000) /\
      ((1 <= k)%nat -> requested_retstart p + size <= cap)).
  set (Inv := fun (st : page_state) (sent : list (gmap string value)) =>
    (exists requested,
       page_parameters st !! "retmax" = Some (VInt requested) /\
       requested <= Z.min max_results 50000) /\
    (1 <= length sent)%nat /\
    forall k p, sent !! k = Some p -> sized k p).
  assert (Hfirst : sized 0%nat p0).
  { exists (Z.min max_results 50000). unfold requested_retmax, p0.
    rewrite first_request_retmax. repeat split; auto; lia. }
  assert (Hnext : forall st requested k,
            page_parameters st !! "retmax" = Some (VInt requested) ->
            requested <= Z.min max_results 50000 -> (1 <= k)%nat ->
            sized k (request cap st requested)).
  { intros st requested k' Hreq Hle Hk'.
    exists (Z.min (cap - retrieved_count st) requested).
    unfold requested_retmax, requested_retstart.
    rewrite (request_retmax _ _ _ Hreq), request_retstart.
    repeat split; try lia. }
  pose proof (get_article_ids_trace Inv fuel self query max_results) as H.
  cbn zeta in H. fold p0 in H. fold cap in H.
  intros Hk.
  match type of H with
  | ?A -> ?B -> _ => assert (HA : A); [|assert (HB : B); [|specialize (H HA HB)]]
  end.
  - intros st sent [(requested & Hreq & _) _]. eauto.
  - intros response listed0 total n Hreply _ Hc Hn.
    assert (Hcap : (if max_results =? -1 then total else max_results) = cap).
    { unfold cap, reported_total. rewrite Hreply, Hc. reflexivity. }
    rewrite Hcap. split.
    + split; [|split].
      * exists (Z.min max_results 50000). cbn. unfold p0.
        rewrite first_request_retmax. split; [reflexivity|lia].
      * cbn. lia.
      * intros k' q Hq. apply list_lookup_singleton_Some in Hq as [-> <-].
        exact Hfirst.
    + intros st sent requested response' listed' n'
        [(requested' & Hreq' & Hle) [Hlen Hsent]] _ _ Hreq _ _ _.
      assert (requested' = requested) as -> by congruence.
      split; [|split].
      * exists (Z.min (cap - retrieved_count st) requested). cbn.
        rewrite (request_retmax _ _ _ Hreq). split; [reflexivity|lia].
      * rewrite length_app. cbn. lia.
      * intros k' q Hq. apply lookup_snoc_Some in Hq as [[_ Hq]|[-> <-]]; [exact (Hsent _ _ Hq)|].
        apply Hnext; auto.
  - clear HA HB.
    destruct (get_article_ids esearch fuel self query max_results []) as [o sent].
    cbn in Hk. destruct o as [ids|e|].
    + destruct H as (st & (_ & _ & Hsent) & _). exact (Hsent _ _ Hk).
    + destruct H as (before & q & -> & _ & [[-> ->]|(st & Hst & requested & Hreq & ->)]).
      * apply list_lookup_singleton_Some in Hk as [-> <-]. exact Hfirst.
      * destruct Hst as ((requested' & Hreq' & Hle) & Hlen & Hsent).
        assert (requested' = requested) as -> by congruence.
        apply lookup_snoc_Some in Hk as [[_ Hk]|[-> <-]]; [exact (Hsent _ _ Hk)|].
        apply Hnext; auto.
    + destruct H as (st & (_ & _ & Hsent) & _). exact (Hsent _ _ Hk).
Qed.

Lemma reading_raises response e :
  get_idlist response = Raise e \/ get_count response = Raise e \/
    get_retmax response = Raise e ->
  e ∈ [AttributeError; TypeError; ValueError; OverflowError].
Proof.
  unfold get_idlist, get_count, get_retmax.
  destruct response as [[[c r l]|]| |]; cbn;
    intros [H|[H|H]]; try discriminate;
    try (injection H as <-; set_solver).
  - destruct l; try discriminate. injection H as <-. set_solver.
  - destruct c; try discriminate; injection H as <-; set_solver.
  - destruct r; try discriminate; injection H as <-; set_solver.
Qed.

(** X3. A search that raises does so at the last dictionary it dispatched:
    with the exception [_get] raised for it, or with the one that reading
    the reply raised, which is [AttributeError] (the document or its
    [esearchresult] is no object), [TypeError] (an [idlist] that cannot be
    iterated, a [retmax] or [count] that is missing), [ValueError] (a
    [retmax] or [count] that is no number) or [OverflowError] (one that is
    infinite); the [count] is read on the first reply only. The loop's own look-ups of ["retmax"] never fail. *)
Theorem get_article_ids_raises_at_last_dispatch fuel self query max_results e sent :
  get_article_ids esearch fuel self query max_results [] = (Raise e, sent) ->
  exists before p,
    sent = before ++ [p] /\ fails_at esearch (length before) p e /\
    (esearch (length before) p = Raised e \/
     e ∈ [AttributeError; TypeError; ValueError; OverflowError]).
Proof.
  intros Hrun.
  pose proof (get_article_ids_trace
    (fun st _ => exists requested, page_parameters st !! "retmax" = Some (VInt requested))
    fuel self query max_results) as H.
  cbn zeta in H. rewrite Hrun in H.
  destruct H as (before & q & -> & Hfail & _).
  - eauto.
  - intros response listed0 total n _ _ _ _. split.
    + cbn. rewrite first_request_retmax. eauto.
    + intros st sent0 requested response' listed' n' _ _ _ Hreq _ _ _. cbn.
      rewrite (request_retmax _ _ _ Hreq). eauto.
  - exists before, q. split; [reflexivity|]. split; [exact Hfail|].
    unfold fails_at in Hfail.
    destruct (esearch (length before) q) as [response|e']; [|left; by subst].
    right. apply (reading_raises response). tauto.
Qed.

(** X4. Every dictionary of a search carries the query as ["term"],
    ["retmode"] set to ["json"], and every other entry of the client's
    parameters (database, tool, e-mail, API key) unchanged; only ["retmax"]
    and ["retstart"] vary from page to page. *)
Theorem get_article_ids_requests_carry fuel self query max_results k p :
  snd (get_article_ids esearch fuel self query max_results []) !! k = Some p ->
  p !! "term" = Some (VStr query) /\
  p !! "retmode" = Some (VStr "json") /\
  forall key, key ∉ ["term"; "retmax"; "retstart"; "retmode"] ->
    p !! key = parameters self !! key.
Proof.
  set (carries := fun p : gmap string value =>
    p !! "term" = Some (VStr query) /\
    p !! "retmode" = Some (VStr "json") /\
    forall key, key ∉ ["term"; "retmax"; "retstart"; "retmode"] ->
      p !! key = parameters self !! key).
  set (Inv := fun (st : page_state) (sent : list (gmap string value)) =>
    (exists requested, page_parameters st !! "retmax" = Some (VInt requested)) /\
    carries (page_parameters st) /\
    forall k p, sent !! k = Some p -> carries p).
  assert (Hfirst : carries (first_request self query max_results)).
  { split; [apply first_request_term|]. split.
    - unfold first_request. by simplify_map_eq.
    - intros key Hkey. by apply first_request_static. }
  assert (Hnext : forall cap st requested,
            carries (page_parameters st) -> carries (request cap st requested)).
  { intros cap st requested (Hterm & _ & Hstatic). split; [|split].
    - rewrite request_term. exact Hterm.
    - apply request_retmode.
    - intros key Hkey. rewrite request_static by exact Hkey. auto. }
  pose proof (get_article_ids_trace Inv fuel self query max_results) as H.
  cbn zeta in H.
  intros Hk.
  match type of H with
  | ?A -> ?B -> _ => assert (HA : A); [|assert (HB : B); [|specialize (H HA HB)]]
  end.
  - intros st sent [Hrm _]. exact Hrm.
  - intros response listed0 total n _ _ _ _. split.
    + split; [|split].
      * cbn. rewrite first_request_retmax. eauto.
      * exact Hfirst.
      * intros k' q Hq. apply list_lookup_singleton_Some in Hq as [_ <-].
        exact Hfirst.
    + intros st sent requested response' listed' n' (_ & Hst & Hsent) _ _ Hreq _ _ _.
      split; [|split].
      * cbn. rewrite (request_retmax _ _ _ Hreq). eauto.
      * apply Hnext. exact Hst.
      * intros k' q Hq. apply lookup_snoc_Some in Hq as [[_ Hq]|[_ <-]];
          [exact (Hsent _ _ Hq)|].
        apply Hnext. exact Hst.
  - clear HA HB.
    destruct (get_article_ids esearch fuel self query max_results []) as [o sent].
    cbn in Hk. destruct o as [ids|e|].
    + destruct H as (st & (_ & _ & Hsent) & _). exact (Hsent _ _ Hk).
    + destruct H as (before & q & -> & _ & [[-> ->]|(st & Hst & requested & Hreq & ->)]).
      * apply list_lookup_singleton_Some in Hk as [_ <-]. exact Hfirst.
      * destruct Hst as (_ & Hst & Hsent).
        apply lookup_snoc_Some in Hk as [[_ Hk]|[_ <-]]; [exact (Hsent _ _ Hk)|].
        apply Hnext. exact Hst.
    + destruct H as (st & (_ & _ & Hsent) & _). exact (Hsent _ _ Hk).
Qed.

End TraceFacts.

(** X1 on an unbounded search of five identifiers, served two per page. *)
Lemma get_article_ids_concatenates_pages_witness :
  five_ids =
  listed_from (catalogue five_ids) 0
    (snd (get_article_ids (catalogue five_ids) 3 some_client "cancer" (-1) [])).
Proof.
  apply (get_article_ids_concatenates_pages (catalogue five_ids) 3 some_client
           "cancer" (-1)).
  reflexivity.
Defined.

(** X2 on the second dictionary of a search capped at 3 whose first page
    held 2 results: it asks for 1 result from offset 2. *)
Lemma get_article_ids_page_sizes_witness :
  exists size,
    requested_retmax
      (request 3 {| article_ids := ["11"; "12"];
                    page_parameters := first_request some_client "cancer" 3;
                    retrieved_count := 2 |} 3) = Some size /\
    size <= Z.min 3 50000 /\
    (1%nat = 0%nat -> size = Z.min 3 50000) /\
    ((1 <= 1)%nat ->
     requested_retstart
       (request 3 {| article_ids := ["11"; "12"];
                     page_parameters := first_request some_client "cancer" 3;
                     retrieved_count := 2 |} 3) + size <=
       if 3 =? -1
       then reported_total (breaks_after_first 0 (first_request some_client "cancer" 3))
       else 3).
Proof.
  apply (get_article_ids_page_sizes breaks_after_first 1 some_client "cancer" 3 1).
  reflexivity.
Defined.

(** X3 on a source whose second page has a [null] for [idlist]. *)
Lemma get_article_ids_raises_at_last_dispatch_witness :
  exists before p,
    snd (get_article_ids null_idlist_after_first 1 some_client "cancer" 3 [])
      = before ++ [p] /\
    fails_at null_idlist_after_first (length before) p TypeError /\
    (null_idlist_after_first (length before) p = Raised TypeError \/
     TypeError ∈ [AttributeError; TypeError; ValueError; OverflowError]).
Proof.
  apply (get_article_ids_raises_at_last_dispatch null_idlist_after_first 1 some_client
           "cancer" 3 TypeError).
  reflexivity.
Defined.

(** X4 on the second dictionary of the same search: it names the database
    of the client. *)
Lemma get_article_ids_requests_carry_witness :
  request 3 {| article_ids := ["11"; "12"];
               page_parameters := first_request some_client "cancer" 3;
               retrieved_count := 2 |} 3 !! "db" = Some (VStr "pmc").
Proof.
  destruct (get_article_ids_requests_carry breaks_after_first 1 some_client "cancer" 3 1
              (request 3 {| article_ids := ["11"; "12"];
                            page_parameters := first_request some_client "cancer" 3;
                            retrieved_count := 2 |} 3)) as (_ & _ & Hstatic).
  - reflexivity.
  - rewrite Hstatic; [reflexivity|].
    intros Hin.
    repeat (apply elem_of_cons in Hin as [Hin|Hin]; [discriminate Hin|]).
    exact (not_elem_of_nil _ Hin).
Defined.

(** ** The wait before a dispatch *)

Section WaitFacts.

Import PubMedClientBase.

Variable now : nat -> Z.

Lemma recent_reads requests : forall reads,
  snd (recent now reads requests) = (reads + length requests)%nat.
Proof.
  induction requests as [|t rest IH]; intros reads; cbn.
  - lia.
  - specialize (IH (S reads)). destruct (recent now (S reads) rest) as [kept reads'].
    cbn in *. lia.
Qed.

Lemma recent_sublist requests : forall reads,
  fst (recent now reads requests) `sublist_of` requests.
Proof.
  induction requests as [|t rest IH]; intros reads; cbn.
  - constructor.
  - specialize (IH (S reads)). destruct (recent now (S reads) rest) as [kept reads'].
    cbn in *. destruct (_ <? _); by constructor.
Qed.

Lemma recent_kept requests : forall reads t,
  monotone now ->
  t ∈ fst (recent now reads requests) -> now reads - one_second < t.
Proof.
  induction requests as [|t0 rest IH]; intros reads t Hmono; cbn.
  - intros Hin. by apply elem_of_nil in Hin.
  - specialize (IH (S reads) t Hmono).
    destruct (recent now (S reads) rest) as [kept reads']. cbn in *.
    pose proof (Hmono reads (S reads) ltac:(lia)).
    destruct (Z.ltb_spec (now reads - one_second) t0); intros Hin.
    + apply elem_of_cons in Hin as [->|Hin]; [lia|]. specialize (IH Hin). lia.
    + specialize (IH Hin). lia.
Qed.

Lemma recent_keeps requests : forall reads t,
  monotone now ->
  t ∈ requests ->
  now (snd (recent now reads requests)) - one_second < t ->
  t ∈ fst (recent now reads requests).
Proof.
  induction requests as [|t0 rest IH]; intros reads t Hmono; cbn.
  - intros Hin. by apply elem_of_nil in Hin.
  - specialize (IH (S reads) t Hmono).
    pose proof (recent_reads rest (S reads)) as Hreads.
    destruct (recent now (S reads) rest) as [kept reads']. cbn in *.
    pose proof (Hmono reads reads' ltac:(lia)).
    intros Hin Hyoung. apply elem_of_cons in Hin as [->|Hin].
    + destruct (Z.ltb_spec (now reads - one_second) t0); [|lia].
      apply elem_of_cons. by left.
    + specialize (IH Hin Hyoung).
      destruct (_ <? _); [apply elem_of_cons; by right|exact IH].
Qed.

Lemma recent_passed N requests : forall reads,
  passed_by now N requests -> (N <= reads)%nat ->
  fst (recent now reads requests) = [].
Proof.
  induction requests as [|t rest IH]; intros reads Hpassed Hle; cbn; [reflexivity|].
  assert (Hrest : passed_by now N rest).
  { intros n t' Hn Hin. apply Hpassed; [exact Hn|]. apply elem_of_cons. by right. }
  specialize (IH (S reads) Hrest ltac:(lia)).
  destruct (recent now (S reads) rest) as [kept reads']. cbn in *.
  pose proof (Hpassed reads t Hle ltac:(apply elem_of_cons; by left)).
  destruct (Z.ltb_spec (now reads - one_second) t); [lia|exact IH].
Qed.

(** X5. One check of the limiter reads the clock once per tracked
    timestamp and prunes the list in place: under a clock that never runs
    backwards, what it keeps is a sublist holding nothing that was a second
    old when the check began and everything less than a second old when it
    ended; it reports the limit exceeded exactly when more timestamps than
    [_rateLimit] are left. *)
Theorem exceeded_rate_limit_prunes self reads :
  monotone now ->
  let '(exceeded, self', reads') := _exceeded_rate_limit now self reads in
  reads' = (reads + length (_requestsMade self))%nat /\
  _requestsMade self' `sublist_of` _requestsMade self /\
  (forall t, t ∈ _requestsMade self' -> now reads - one_second < t) /\
  (forall t, t ∈ _requestsMade self -> now reads' - one_second < t ->
             t ∈ _requestsMade self') /\
  (exceeded = true <-> _rateLimit self < Z.of_nat (length (_requestsMade self'))) /\
  _rateLimit self' = _rateLimit self /\ parameters self' = parameters self.
Proof.
  intros Hmono. unfold _exceeded_rate_limit.
  pose proof (recent_reads (_requestsMade self) reads) as Hreads.
  pose proof (recent_sublist (_requestsMade self) reads) as Hsub.
  pose proof (fun t => recent_kept (_requestsMade self) reads t Hmono) as Hkept.
  pose proof (fun t => recent_keeps (_requestsMade self) reads t Hmono) as Hkeeps.
  destruct (recent now reads (_requestsMade self)) as [kept reads']. cbn in *.
  repeat split; auto.
  - intros H. by apply Z.ltb_lt.
  - intros H. by apply Z.ltb_lt.
Qed.

Lemma passed_by_sublist N kept requests :
  kept `sublist_of` requests -> passed_by now N requests -> passed_by now N kept.
Proof.
  intros Hsub Hpassed n t Hn Hin. apply Hpassed; [exact Hn|].
  eapply elem_of_sublist; eauto.
Qed.

Lemma busy_wait_passes N : forall budget self reads,
  0 <= _rateLimit self ->
  passed_by now N (_requestsMade self) ->
  (N - reads <= budget)%nat ->
  forall fuel, (S budget <= fuel)%nat ->
  exists self' reads',
    busy_wait now fuel self reads = Ret (self', reads') /\
    _requestsMade self' `sublist_of` _requestsMade self.
Proof.
  induction budget as [|budget IH]; intros self reads Hlim Hpassed Hbudget fuel Hfuel.
  - destruct fuel as [|fuel]; [lia|]. cbn. unfold _exceeded_rate_limit.
    pose proof (recent_passed N (_requestsMade self) reads Hpassed ltac:(lia)) as Hnil.
    destruct (recent now reads (_requestsMade self)) as [kept reads']. cbn in *.
    subst kept. cbn [length]. destruct (Z.ltb_spec (_rateLimit self) (Z.of_nat 0)); [lia|].
    eexists _, _. split; [reflexivity|]. cbn. apply sublist_nil_l.
  - destruct fuel as [|fuel]; [lia|]. cbn. unfold _exceeded_rate_limit.
    pose proof (recent_reads (_requestsMade self) reads) as Hreads.
    pose proof (recent_sublist (_requestsMade self) reads) as Hsub.
    destruct (recent now reads (_requestsMade self)) as [kept reads'] eqn:Hrecent.
    cbn in *.
    destruct (Z.ltb_spec (_rateLimit self) (Z.of_nat (length kept))) as [Hlt|Hle].
    + assert (Hlen : (1 <= length (_requestsMade self))%nat).
      { apply sublist_length in Hsub. lia. }
      destruct (IH (set_requestsMade self kept) reads' Hlim
                  (passed_by_sublist N kept _ Hsub Hpassed) ltac:(lia) fuel ltac:(lia))
        as (self' & reads'' & Hrun & Hsub').
      exists self', reads''. split; [exact Hrun|]. cbn in Hsub'.
      by etransitivity.
    + eexists _, _. split; [reflexivity|]. exact Hsub.
Qed.

(** X6. The wait before a dispatch ends once the clock has moved a second
    past the tracked timestamps: with a limit that is not negative, if every
    reading from the [N]-th on is that late, [N + 1] polls (fewer when
    readings have been made already) are enough, and the client comes out
    with no more timestamps than the limit, all of them among those it had. *)
Theorem busy_wait_ends_when_clock_passes self reads N fuel :
  0 <= _rateLimit self ->
  passed_by now N (_requestsMade self) ->
  (S (N - reads) <= fuel)%nat ->
  exists self' reads',
    busy_wait now fuel self reads = Ret (self', reads') /\
    _requestsMade self' `sublist_of` _requestsMade self /\
    Z.of_nat (length (_requestsMade self')) <= _rateLimit self.
Proof.
  intros Hlim Hpassed Hfuel.
  destruct (busy_wait_passes N (N - reads) self reads Hlim Hpassed (le_n _) fuel Hfuel)
    as (self' & reads' & Hrun & Hsub).
  exists self', reads'. split; [exact Hrun|]. split; [exact Hsub|].
  apply busy_wait_admits in Hrun as [Hlen Heq]. lia.
Qed.

Lemma recent_keeps_young young requests :
  young `sublist_of` requests ->
  (forall n t, t ∈ young -> now n - one_second < t) ->
  forall reads, young `sublist_of` fst (recent now reads requests).
Proof.
  induction 1 as [|t young requests Hsub IH|t young requests Hsub IH];
    intros Hyoung reads; cbn.
  - constructor.
  - specialize (IH (fun n t' Hin => Hyoung n t' (list_elem_of_further _ _ _ Hin))
                  (S reads)).
    destruct (recent now (S reads) requests) as [kept reads']. cbn in *.
    pose proof (Hyoung reads t (list_elem_of_here _ _)).
    destruct (Z.ltb_spec (now reads - one_second) t); [by constructor | lia].
  - specialize (IH Hyoung (S reads)).
    destruct (recent now (S reads) requests) as [kept reads']. cbn in *.
    destruct (_ <? _); [by constructor | exact IH].
Qed.

Lemma busy_wait_spins young fuel : forall self reads,
  young `sublist_of` _requestsMade self ->
  (forall n t, t ∈ young -> now n - one_second < t) ->
  _rateLimit self < Z.of_nat (length young) ->
  busy_wait now fuel self reads = Running.
Proof.
  induction fuel as [|fuel IH]; intros self reads Hsub Hyoung Hmany; cbn;
    [reflexivity|].
  unfold _exceeded_rate_limit.
  pose proof (recent_keeps_young _ _ Hsub Hyoung reads) as Hkept.
  destruct (recent now reads (_requestsMade self)) as [kept reads']. cbn in *.
  pose proof (sublist_length _ _ Hkept).
  destruct (Z.ltb_spec (_rateLimit self) (Z.of_nat (length kept))); [|lia].
  apply IH; cbn; auto.
Qed.

(** X7. The wait is a busy loop on the clock alone: as long as the clock
    stays within a second of more timestamps than the limit, whatever else
    is tracked, [_get] neither dispatches nor raises, however many polls it
    is given. [young] are such timestamps among the tracked ones. *)
Theorem get_spins_until_the_clock_moves fuel requests_get self reads url parameters
    output young :
  young `sublist_of` _requestsMade self ->
  (forall n t, t ∈ young -> now n - one_second < t) ->
  _rateLimit self < Z.of_nat (length young) ->
  _get now fuel requests_get self reads url parameters output = Running.
Proof.
  intros Hsub Hyoung Hmany. unfold _get.
  rewrite (busy_wait_spins young fuel self reads Hsub Hyoung Hmany). reflexivity.
Qed.

Lemma busy_wait_sublist fuel : forall self reads self' reads',
  busy_wait now fuel self reads = Ret (self', reads') ->
  _requestsMade self' `sublist_of` _requestsMade self /\
  parameters self' = parameters self.
Proof.
  induction fuel as [|fuel IH]; intros self reads self' reads'; cbn; [discriminate|].
  unfold _exceeded_rate_limit.
  pose proof (recent_sublist (_requestsMade self) reads) as Hsub.
  destruct (recent now reads (_requestsMade self)) as [kept reads1]. cbn in *.
  destruct (_ <? _).
  - intros Hw. apply IH in Hw as [Hsub' Hpar]. cbn in *. split; [by etransitivity|done].
  - intros [= <- <-]. cbn. by split.
Qed.

(** X8. A call of [_get] that returns has stored the output mode in the
    caller's dictionary and stamped the dispatch with the one clock reading
    made after the response, behind what the wait left of the earlier
    timestamps: at most [_rateLimit] of them, so that at most
    [_rateLimit + 1] are tracked afterwards. *)
Theorem get_stamps_the_dispatch fuel requests_get self reads url params output
    payload self' params' reads' :
  _get now fuel requests_get self reads url params output =
    Ret (payload, self', params', reads') ->
  params' = <["retmode" := VStr output]> params /\
  exists kept,
    _requestsMade self' = kept ++ [now (pred reads')] /\
    kept `sublist_of` _requestsMade self /\
    Z.of_nat (length kept) <= _rateLimit self /\
    parameters self' = parameters self.
Proof.
  unfold _get.
  destruct (busy_wait now fuel self reads) as [[self1 reads1]| |] eqn:Hw;
    cbn; try discriminate.
  pose proof (busy_wait_sublist _ _ _ _ _ Hw) as [Hsub Hpar].
  apply busy_wait_admits in Hw as [Hlen Hlim].
  destruct (status_ok _); [|discriminate].
  assert (Hkept : exists kept,
            _requestsMade self1 ++ [now reads1] = kept ++ [now (pred (S reads1))] /\
            kept `sublist_of` _requestsMade self /\
            Z.of_nat (length kept) <= _rateLimit self /\
            parameters self1 = parameters self).
  { exists (_requestsMade self1). repeat split; auto. lia. }
  destruct (String.eqb output "json").
  - destruct (body_json _); cbn; [|discriminate].
    intros [= _ <- <- <-]. split; [reflexivity|exact Hkept].
  - intros [= _ <- <- <-]. split; [reflexivity|exact Hkept].
Qed.

End WaitFacts.

Lemma slow_clock_monotone : monotone slow_clock.
Proof. intros m n Hle. unfold slow_clock. lia. Qed.

Lemma busy_client_passed : passed_by slow_clock 19 (_requestsMade busy_client).
Proof.
  intros n t Hn Hin. unfold slow_clock, PubMedClientBase.one_second. cbn in Hin.
  repeat (apply elem_of_cons in Hin as [->|Hin]; [lia|]).
  by apply elem_of_nil in Hin.
Qed.

Lemma busy_client_young n t :
  t ∈ _requestsMade busy_client -> stopped_clock n - PubMedClientBase.one_second < t.
Proof.
  intros Hin. unfold stopped_clock, PubMedClientBase.one_second. cbn in Hin.
  repeat (apply elem_of_cons in Hin as [->|Hin]; [lia|]).
  by apply elem_of_nil in Hin.
Qed.

(** X5 on a check that begins 1.1 s after the first of four requests, with
    a clock that moves a tenth of a second per reading. *)
Lemma exceeded_rate_limit_prunes_witness :
  let '(exceeded, self', reads') :=
    PubMedClientBase._exceeded_rate_limit slow_clock busy_client 11 in
  reads' = (11 + length (_requestsMade busy_client))%nat /\
  _requestsMade self' `sublist_of` _requestsMade busy_client /\
  (forall t, t ∈ _requestsMade self' ->
             slow_clock 11 - PubMedClientBase.one_second < t) /\
  (forall t, t ∈ _requestsMade busy_client ->
             slow_clock reads' - PubMedClientBase.one_second < t ->
             t ∈ _requestsMade self') /\
  (exceeded = true <->
   _rateLimit busy_client < Z.of_nat (length (_requestsMade self'))) /\
  _rateLimit self' = _rateLimit busy_client /\
  parameters self' = parameters busy_client.
Proof.
  exact (exceeded_rate_limit_prunes slow_clock busy_client 11 slow_clock_monotone).
Defined.

(** X6 on the same client and clock, from the tenth reading on. *)
Lemma busy_wait_ends_when_clock_passes_witness :
  exists self' reads',
    PubMedClientBase.busy_wait slow_clock 10 busy_client 10 = Ret (self', reads') /\
    _requestsMade self' `sublist_of` _requestsMade busy_client /\
    Z.of_nat (length (_requestsMade self')) <= _rateLimit busy_client.
Proof.
  apply (busy_wait_ends_when_clock_passes slow_clock busy_client 10 19 10).
  - cbn. lia.
  - exact busy_client_passed.
  - cbn. lia.
Defined.

(** X7 on a client that tracks a request two seconds old before the four
    of [busy_client], under a clock that stands still. *)
Lemma get_spins_until_the_clock_moves_witness :
  PubMedClientBase._get stopped_clock 100 always_ok stale_then_busy 0
    "/entrez/eutils/esearch.fcgi" ∅ "json" = Running.
Proof.
  apply (get_spins_until_the_clock_moves stopped_clock 100 always_ok stale_then_busy 0
           "/entrez/eutils/esearch.fcgi" ∅ "json" [0; 200000; 500000; 900000]).
  - apply sublist_cons. reflexivity.
  - exact busy_client_young.
  - cbn. lia.
Defined.

(** X8 on the first request of a new client. *)
Lemma get_stamps_the_dispatch_witness :
  (<["retmode" := VStr "json"]> ∅ : gmap string value) =
    <["retmode" := VStr "json"]> ∅ /\
  exists kept,
    _requestsMade (set_requestsMade some_client [slow_clock 0]) =
      kept ++ [slow_clock (pred 1)] /\
    kept `sublist_of` _requestsMade some_client /\
    Z.of_nat (length kept) <= _rateLimit some_client /\
    parameters (set_requestsMade some_client [slow_clock 0]) = parameters some_client.
Proof.
  apply (get_stamps_the_dispatch slow_clock 1 always_ok some_client 0
           "/entrez/eutils/esearch.fcgi" ∅ "json" (PubMedClientBase.AsJson (Json None))).
  reflexivity.
Defined.


(** ** Generators *)

Section GeneratorFacts.

Context {A B : Type} (f : A -> outcome B).

(** Building the list at once gives what iterating to the end gives. *)
Lemma each_is_collected (l : list A) :
  PubMedArticle.each f l = collected (yield_each f l).
Proof.
  induction l as [|a l IH]; cbn; [reflexivity|].
  destruct (f a) as [b|e|]; cbn; try reflexivity.
  rewrite IH. unfold collected. cbn.
  by destruct (finished (yield_each f l)).
Qed.

(** What was yielded comes, in order, from a prefix of the input. *)
Lemma yield_each_prefix (l : list A) :
  exists done_ rest,
    l = done_ ++ rest /\
    Forall2 (fun a b => f a = Ret b) done_ (yielded (yield_each f l)) /\
    match rest with
    | [] => finished (yield_each f l) = Ret tt
    | a :: _ =>
        (exists e, f a = Raise e /\ finished (yield_each f l) = Raise e) \/
        (f a = Running /\ finished (yield_each f l) = Running)
    end.
Proof.
  induction l as [|a l (done_ & rest & Hl & Hdone & Hrest)]; cbn.
  - exists [], []. repeat split; constructor.
  - destruct (f a) as [b|e|] eqn:Hfa; cbn.
    + exists (a :: done_), rest. split; [by rewrite Hl|]. split; [by constructor|].
      exact Hrest.
    + exists [], (a :: l). split; [done|]. split; [constructor|]. left. eauto.
    + exists [], (a :: l). split; [done|]. split; [constructor|]. by right.
Qed.

Lemma yield_each_all (l : list A) :
  (forall a, a ∈ l -> exists b, f a = Ret b) ->
  Forall2 (fun a b => f a = Ret b) l (yielded (yield_each f l)) /\
  finished (yield_each f l) = Ret tt.
Proof.
  induction l as [|a l IH]; intros H; cbn; [split; constructor|].
  destruct (H a) as [b Hb]; [apply elem_of_cons; auto|]. rewrite Hb. cbn.
  destruct IH as [IH1 IH2]; [intros a' Ha'; apply H, elem_of_cons; auto|].
  split; [by constructor | done].
Qed.

Lemma yield_each_first_failure (before : list A) (a : A) (after : list A) (e : exn) :
  (forall a', a' ∈ before -> exists b, f a' = Ret b) ->
  f a = Raise e ->
  Forall2 (fun a b => f a = Ret b) before
    (yielded (yield_each f (before ++ a :: after))) /\
  finished (yield_each f (before ++ a :: after)) = Raise e.
Proof.
  induction before as [|a' before IH]; intros H Ha; cbn.
  - rewrite Ha. split; [constructor | done].
  - destruct (H a') as [b Hb]; [apply elem_of_cons; auto|]. rewrite Hb. cbn.
    destruct IH as [IH1 IH2]; [intros x Hx; apply H, elem_of_cons; auto | done |].
    split; [by constructor | done].
Qed.

End GeneratorFacts.

(** ** Summaries *)

Section SummaryFacts.

Import Summary.

Lemma findall_one_step e s : findall e [s] = select s e.
Proof. unfold findall. cbn. by rewrite app_nil_r. Qed.

Lemma select_child_tagged e t : select (Child t None) e = tagged t (children e).
Proof.
  cbn. unfold tagged, matches. apply filter_ext. intros c. by rewrite andb_true_r.
Qed.

Lemma elem_of_tagged t l e : e ∈ tagged t l <-> e ∈ l /\ tag e = t.
Proof.
  unfold tagged. rewrite list_elem_of_In, filter_In, <- list_elem_of_In.
  by rewrite String.eqb_eq.
Qed.

Lemma find_child_None e t : find e [Child t None] = None <-> ~ has_child e t.
Proof.
  rewrite find_one_step, select_child_tagged. unfold has_child. split.
  - intros H (c & Hc & Ht).
    assert (c ∈ tagged t (children e)) as Hin by (by apply elem_of_tagged).
    destruct (tagged t (children e)); [by apply elem_of_nil in Hin | discriminate].
  - intros H. destruct (tagged t (children e)) as [|c l] eqn:E; [done|].
    destruct H. exists c.
    apply elem_of_tagged. rewrite E. apply elem_of_cons. auto.
Qed.

Lemma collect_article_ids_unnamed items : forall m,
  (exists item, item ∈ items /\ attrib item !! "Name" = None) ->
  collect_article_ids items m = Raise KeyError.
Proof.
  induction items as [|item items IH]; intros m (bad & Hin & Hbad).
  - by apply elem_of_nil in Hin.
  - cbn. destruct (attrib item !! "Name") as [name|] eqn:Hname; [|done].
    apply IH. exists bad. split; [|done].
    apply elem_of_cons in Hin as [->|Hin]; [congruence | done].
Qed.

Lemma collect_article_ids_named items : forall m,
  (forall item, item ∈ items -> attrib item !! "Name" <> None) ->
  exists m',
    collect_article_ids items m = Ret m' /\
    forall name,
      (forall item, last_named items name item -> m' !! name = Some (text item)) /\
      ((forall item, item ∈ items -> attrib item !! "Name" <> Some name) ->
       m' !! name = m !! name).
Proof.
  induction items as [|item items IH]; intros m Hnamed; cbn.
  - exists m. split; [done|]. intros name. split; [|done].
    intros item (before & after & H & _). by destruct before.
  - destruct (attrib item !! "Name") as [n|] eqn:Hn;
      [|destruct (Hnamed item); [apply elem_of_cons; auto | done]].
    destruct (IH (<[n := text item]> m)) as (m' & Hm' & Hlook);
      [intros i Hi; apply Hnamed, elem_of_cons; auto|].
    exists m'. split; [done|]. intros name. destruct (Hlook name) as [Hlast Hnone].
    split.
    + intros it (before & after & H & Hname & Hafter).
      destruct before as [|b before]; cbn in H.
      * injection H as <- <-. rewrite Hnone.
        -- assert (n = name) as -> by congruence. by rewrite lookup_insert_eq.
        -- exact Hafter.
      * injection H as <- ->. apply Hlast. by exists before, after.
    + intros Habsent. rewrite Hnone.
      * rewrite lookup_insert_ne; [done|]. intros ->.
        apply (Habsent item); [apply elem_of_cons; auto | done].
      * intros i Hi. apply Habsent, elem_of_cons. auto.
Qed.

(** [from_xml] on a record with an [Id], in terms of the identifiers loop. *)
Lemma from_xml_with_id docsum id :
  find docsum [Child "Id" None] = Some id ->
  from_xml docsum =
  (article_ids ←
     match find docsum (item_path "ArticleIds") with
     | Some article_ids_elem =>
         collect_article_ids (tagged "Item" (children article_ids_elem)) ∅
     | None => Ret ∅
     end;
   mret {| doc_id := text id;
           pub_date := item_text docsum "PubDate";
           epub_date := item_text docsum "EPubDate";
           source := item_text docsum "Source";
           author_list :=
             match find docsum (item_path "AuthorList") with
             | Some author_list_elem =>
                 text <$> findall author_list_elem (item_path "Author")
             | None => []
             end;
           title := item_text docsum "Title";
           volume := item_text docsum "Volume";
           issue := item_text docsum "Issue";
           pages := item_text docsum "Pages";
           article_ids := article_ids;
           doi := item_text docsum "DOI";
           full_journal_name := item_text docsum "FullJournalName";
           so := item_text docsum "SO" |}).
Proof.
  intros Hid. unfold from_xml. rewrite Hid.
  destruct (find docsum (item_path "ArticleIds")) as [elem|]; [|reflexivity].
  by rewrite findall_one_step, select_child_tagged.
Qed.

(** X11. [ArticleSummary.from_xml] raises [AttributeError] on a record
    without an [Id] child; on a record with one it raises [KeyError] when
    the [ArticleIds] item has an [Item] child without a [Name], and
    otherwise returns a summary whose [doc_id] is the text of the first
    [Id] child. *)
Theorem from_xml_needs_id_and_named_items (docsum : Element) :
  (~ has_child docsum "Id" -> from_xml docsum = Raise AttributeError) /\
  (forall id, find docsum [Child "Id" None] = Some id ->
     (forall ids_elem,
        find docsum (item_path "ArticleIds") = Some ids_elem ->
        has_unnamed_item ids_elem ->
        from_xml docsum = Raise KeyError) /\
     ((forall ids_elem,
         find docsum (item_path "ArticleIds") = Some ids_elem ->
         ~ has_unnamed_item ids_elem) ->
      exists summary, from_xml docsum = Ret summary /\ doc_id summary = text id)).
Proof.
  split.
  - intros Hid. apply find_child_None in Hid. unfold from_xml. by rewrite Hid.
  - intros id Hid. rewrite (from_xml_with_id _ _ Hid). split.
    + intros ids_elem -> Hunnamed. by rewrite collect_article_ids_unnamed.
    + intros Hnamed.
      destruct (find docsum (item_path "ArticleIds")) as [ids_elem|]; cbn; [|eauto].
      destruct (collect_article_ids_named (tagged "Item" (children ids_elem)) ∅)
        as (m & -> & _); cbn; [|eauto].
      intros item Hitem Hnone. apply (Hnamed ids_elem eq_refl). by exists item.
Qed.

(** X12. In a summary that [from_xml] returns, [article_ids] maps a name to
    the text of the last [Item] child of the [ArticleIds] item that carries
    this [Name], holds no other name, and is empty when the record has no
    [ArticleIds] item. *)
Theorem from_xml_article_ids_last_wins (docsum : Element) (summary : ArticleSummary) :
  from_xml docsum = Ret summary ->
  (find docsum (item_path "ArticleIds") = None -> article_ids summary = ∅) /\
  (forall ids_elem name,
     find docsum (item_path "ArticleIds") = Some ids_elem ->
     (forall item,
        last_named (tagged "Item" (children ids_elem)) name item ->
        article_ids summary !! name = Some (text item)) /\
     ((forall item,
         item ∈ tagged "Item" (children ids_elem) ->
         attrib item !! "Name" <> Some name) ->
      article_ids summary !! name = None)).
Proof.
  intros Hret.
  destruct (find docsum [Child "Id" None]) as [id|] eqn:Hid;
    [|unfold from_xml in Hret; rewrite Hid in Hret; discriminate].
  rewrite (from_xml_with_id _ _ Hid) in Hret. split.
  - intros Hnone. rewrite Hnone in Hret. cbn in Hret. by injection Hret as <-.
  - intros ids_elem name Helem. rewrite Helem in Hret.
    destruct (collect_article_ids (tagged "Item" (children ids_elem)) ∅)
      as [m|e|] eqn:Hm; cbn in Hret; try discriminate.
    injection Hret as <-. cbn.
    assert (forall item, item ∈ tagged "Item" (children ids_elem) ->
                         attrib item !! "Name" <> None) as Hnamed.
    { intros item Hitem Hnone.
      rewrite collect_article_ids_unnamed in Hm; [discriminate | by exists item]. }
    destruct (collect_article_ids_named _ ∅ Hnamed) as (m' & Hm' & Hlook).
    rewrite Hm in Hm'. injection Hm' as <-.
    destruct (Hlook name) as [Hlast Habsent]. split; [exact Hlast|].
    intros H. by rewrite Habsent.
Qed.

Section ParseFacts.

Variable fromstring : string -> completed Element.
Variable esummary : gmap string value -> completed string.

(** X13. On a body that parses, [_parse_xml] returns what iterating
    [get_articles_summaries] to the end yields when every [DocSum] child of
    the root converts: one summary per child, in order. When a child fails
    to convert, the generator has yielded the summaries of the children
    before it and raises; [_parse_xml] raises the same exception and
    returns none of them. *)
Theorem parse_xml_is_the_generator_collected (self : client)
    (article_ids : list string) (response : string) (root : Element) :
  esummary (PubMedClient.fetch_request self article_ids) = Returned response ->
  fromstring response = Returned root ->
  _parse_xml fromstring response =
    collected (PubMedClient.get_articles_summaries fromstring esummary self article_ids) /\
  ((forall docsum, docsum ∈ tagged "DocSum" (children root) ->
      exists summary, from_xml docsum = Ret summary) ->
   exists summaries,
     _parse_xml fromstring response = Ret summaries /\
     Forall2 (fun docsum summary => from_xml docsum = Ret summary)
       (tagged "DocSum" (children root)) summaries) /\
  (forall before docsum after e,
     tagged "DocSum" (children root) = before ++ docsum :: after ->
     (forall d, d ∈ before -> exists summary, from_xml d = Ret summary) ->
     from_xml docsum = Raise e ->
     _parse_xml fromstring response = Raise e /\
     finished (PubMedClient.get_articles_summaries fromstring esummary self article_ids)
       = Raise e /\
     Forall2 (fun d summary => from_xml d = Ret summary) before
       (yielded (PubMedClient.get_articles_summaries fromstring esummary self
                   article_ids))).
Proof.
  intros Hresp Hroot.
  unfold _parse_xml, PubMedClient.get_articles_summaries.
  rewrite Hresp, Hroot. cbn [run mbind outcome_bind Py.bind].
  rewrite findall_one_step, select_child_tagged, each_is_collected.
  split; [reflexivity|]. split.
  - intros Hall. destruct (yield_each_all from_xml _ Hall) as [Hy Hf].
    exists (yielded (yield_each from_xml (tagged "DocSum" (children root)))).
    unfold collected. rewrite Hf. done.
  - intros before docsum after e -> Hbefore Hbad.
    destruct (yield_each_first_failure from_xml before docsum after e Hbefore Hbad)
      as [Hy Hf].
    unfold collected. rewrite Hf. done.
Qed.

End ParseFacts.

End SummaryFacts.

(** ** The fetch generators *)

Section FetchFacts.

Variable tolerant : bool.
Variable int_str : string -> completed Z.
Variable fromstring : string -> completed Element.
Variable efetch : gmap string value -> completed string.

(** X9. On a body that parses, iterating [get_articles] yields one article
    per [PubmedArticle] element of the document, in document order, and
    never a book article: with no [PubmedBookArticle] element the iteration
    ends there, and with one it raises [AttributeError] after the last
    article, wherever in the document the book articles stand. *)
Theorem get_articles_yields_articles_only self article_ids response root :
  parameters self !! "db" = Some (VStr "pubmed") ->
  efetch (PubMedClient.fetch_request self article_ids) = Returned response ->
  fromstring response = Returned root ->
  Forall2 (fun article x =>
             exists self', x = Article self' /\
               PubMedArticle.__init__ tolerant int_str (Some article) ∅ = Ret self')
    (tagged "PubmedArticle" (iter root))
    (yielded (PubMedClient.get_articles tolerant int_str fromstring efetch self article_ids)) /\
  finished (PubMedClient.get_articles tolerant int_str fromstring efetch self article_ids) =
    match tagged "PubmedBookArticle" (iter root) with
    | [] => Ret tt
    | _ :: _ => Raise AttributeError
    end.
Proof.
  intros Hdb Hresp Hroot.
  unfold PubMedClient.get_articles, PubMedClient._get_articles. rewrite Hdb. cbn.
  rewrite Hresp, Hroot. unfold PubMedClient.articles_then_books, chain.
  fold (tagged "PubmedArticle" (iter root)).
  fold (tagged "PubmedBookArticle" (iter root)).
  destruct (yield_each_all
              (fun article => Article <$> PubMedArticle.__init__ tolerant int_str (Some article) ∅)
              (tagged "PubmedArticle" (iter root))) as [Hy Hf].
  { intros article _.
    destruct (init_from_xml_returns tolerant int_str article ∅) as (self' & r & -> & _).
    by exists (Article self'). }
  rewrite Hf.
  assert (Harticles :
    Forall2 (fun article x =>
               exists self', x = Article self' /\
                 PubMedArticle.__init__ tolerant int_str (Some article) ∅ = Ret self')
      (tagged "PubmedArticle" (iter root))
      (yielded (yield_each
         (fun article => Article <$> PubMedArticle.__init__ tolerant int_str (Some article) ∅)
         (tagged "PubmedArticle" (iter root))))).
  { eapply Forall2_impl; [exact Hy|]. intros article x Hx.
    unfold fmap, outcome_fmap in Hx.
    destruct (PubMedArticle.__init__ tolerant int_str (Some article) ∅) as [self'| |];
      cbn in Hx; try discriminate.
    injection Hx as <-. eauto. }
  destruct (tagged "PubmedBookArticle" (iter root)) as [|book books]; cbn.
  - by rewrite app_nil_r.
  - by rewrite app_nil_r.
Qed.

End FetchFacts.

(** X9 on a document whose book article comes first: the article is
    yielded, then the iteration raises. *)
Lemma get_articles_yields_articles_only_witness :
  Forall2 (fun article x =>
             exists self', x = Article self' /\
               PubMedArticle.__init__ true plain_int (Some article) ∅ = Ret self')
    (tagged "PubmedArticle" (iter fetch_document))
    (yielded (PubMedClient.get_articles true plain_int (fun _ => Returned fetch_document)
                (fun _ => Returned "") (PubMed.__init__ "my_tool" "my_email@example.com" None)
                ["29547486"])) /\
  finished (PubMedClient.get_articles true plain_int (fun _ => Returned fetch_document)
              (fun _ => Returned "") (PubMed.__init__ "my_tool" "my_email@example.com" None)
              ["29547486"]) =
    match tagged "PubmedBookArticle" (iter fetch_document) with
    | [] => Ret tt
    | _ :: _ => Raise AttributeError
    end.
Proof.
  apply (get_articles_yields_articles_only true plain_int (fun _ => Returned fetch_document)
           (fun _ => Returned "") (PubMed.__init__ "my_tool" "my_email@example.com" None)
           ["29547486"] "" fetch_document); reflexivity.
Defined.

(** X12 on the first record of the document of [_test_summary]. *)
Lemma from_xml_article_ids_last_wins_witness :
  exists summary,
    Summary.from_xml docsum_2684823 = Ret summary /\
    Summary.article_ids summary !! "doi" = Some (Some "10.1126/science.1165395").
Proof.
  destruct (Summary.from_xml docsum_2684823) as [summary|e|] eqn:Hret;
    [|discriminate Hret|discriminate Hret].
  exists summary. split; [reflexivity|].
  destruct (from_xml_article_ids_last_wins docsum_2684823 summary Hret) as [_ Hids].
  destruct (Hids (Elem "Item" (<["Type" := "List"]> {["Name" := "ArticleIds"]}) None
                    [Elem "Item" (<["Type" := "String"]> {["Name" := "pmid"]})
                       (Some "19008416") [];
                     Elem "Item" (<["Type" := "String"]> {["Name" := "doi"]})
                       (Some "10.1126/science.1165395") []])
                 "doi" eq_refl) as [Hlast _].
  apply (Hlast (Elem "Item" (<["Type" := "String"]> {["Name" := "doi"]})
                  (Some "10.1126/science.1165395") [])).
  exists [Elem "Item" (<["Type" := "String"]> {["Name" := "pmid"]}) (Some "19008416") []], [].
  split; [reflexivity|]. split; [reflexivity|].
  intros e He. by apply elem_of_nil in He.
Defined.

(** X13 on a document whose second record has no [Id]. *)
Lemma parse_xml_is_the_generator_collected_witness :
  Summary._parse_xml (fun _ => Returned summary_document) "" = Raise AttributeError /\
  finished (PubMedClient.get_articles_summaries (fun _ => Returned summary_document)
              (fun _ => Returned "") some_client ["2684823"; "0"]) =
    Raise AttributeError /\
  Forall2 (fun d summary => Summary.from_xml d = Ret summary) [docsum_2684823]
    (yielded (PubMedClient.get_articles_summaries (fun _ => Returned summary_document)
                (fun _ => Returned "") some_client ["2684823"; "0"])).
Proof.
  destruct (parse_xml_is_the_generator_collected (fun _ => Returned summary_document)
              (fun _ => Returned "") some_client ["2684823"; "0"] "" summary_document
              eq_refl eq_refl) as (_ & _ & Hfails).
  apply (Hfails [docsum_2684823] docsum_without_id [] AttributeError).
  - reflexivity.
  - intros d Hd. apply list_elem_of_singleton in Hd as ->. eexists. reflexivity.
  - reflexivity.
Defined.

(** ** Articles built from XML *)

Section EntityFacts.

Import PubMedArticle.

Variable tolerant : bool.
Variable int_str : string -> completed Z.

Lemma init_from_xml_slots xml_element kwargs :
  exists self,
    __init__ tolerant int_str (Some xml_element) kwargs = Ret self /\
    dom self = list_to_set __slots__ /\
    self !! "xml" = Some (VElement xml_element).
Proof.
  destruct (extract_never_raises tolerant int_str xml_element) as [r Hr].
  destruct (each_returns (author_dict tolerant)
              (findall xml_element [Descendant "Author" None])
              (author_dict_returns tolerant))
    as [authors Hauthors].
  unfold __init__, _initializeFromXML, _extract_pubmed_id, _extract_title,
    _extract_journal, _extract_abstract, _extract_conclusions, _extract_methods,
    _extract_results, _extract_copyrights, _extract_doi, _extract_authors.
  rewrite !get_content_of_element, Hr, Hauthors. cbn.
  eexists. split; [reflexivity|]. split.
  - rewrite !dom_insert_L, dom_empty_L. cbn. set_solver.
  - by simplify_map_eq.
Qed.

(** X10. An article built from an XML element has every slot assigned,
    whatever the element holds: [toDict] returns the thirteen entries in
    slot order and never raises [AttributeError]; the [xml] slot holds the
    element itself, and keyword arguments passed along are ignored. *)
Theorem article_from_xml_fills_every_slot xml_element kwargs :
  exists self,
    __init__ tolerant int_str (Some xml_element) kwargs = Ret self /\
    __init__ tolerant int_str (Some xml_element) ∅ = Ret self /\
    dom self = list_to_set __slots__ /\
    toDict self = Ret ((fun key => (key, default VNone (self !! key))) <$> __slots__) /\
    self !! "xml" = Some (VElement xml_element).
Proof.
  destruct (init_from_xml_slots xml_element kwargs) as (self & Hinit & Hdom & Hxml).
  exists self. split; [exact Hinit|]. split; [exact Hinit|]. split; [exact Hdom|].
  split; [|exact Hxml].
  unfold toDict. apply dict_of_slots_ext. intros key Hkey. unfold get_slot.
  assert (Hin : key ∈ dom self) by (rewrite Hdom; by apply elem_of_list_to_set).
  apply elem_of_dom in Hin as [v ->]. reflexivity.
Qed.

End EntityFacts.

(** ** Resolving in bulk *)

Section BatchFacts.

Import PMC.

Variable fromstring : string -> completed Element.
Variable oa_lookup : gmap string value -> completed string.

Lemma first_accepted_link_raises record accepted_formats e :
  Forall quote_free accepted_formats ->
  first_accepted_link (Some record) accepted_formats = Raise e ->
  e = KeyError /\
  exists fmt link,
    fmt ∈ accepted_formats /\ first_link_of record fmt link /\
    attrib link !! "href" = None.
Proof.
  induction accepted_formats as [|f rest IH]; intros Hq; cbn; [discriminate|].
  apply Forall_cons in Hq as [Hf Hq]. rewrite (find_link_quote_free _ _ Hf).
  destruct (find record (link_path f)) as [link|] eqn:Hfind.
  - destruct (attrib link !! "href") eqn:Hhref; [discriminate|].
    intros [= <-]. split; [reflexivity|]. exists f, link.
    split; [apply elem_of_cons; auto|]. split; [by apply find_link_Some|done].
  - intros H. destruct (IH Hq H) as (-> & fmt & link & Hin & Hlink & Hhref).
    split; [reflexivity|]. exists fmt, link. split; [apply elem_of_cons; auto|done].
Qed.

Lemma first_accepted_link_terminates record accepted_formats :
  first_accepted_link record accepted_formats <> Running.
Proof.
  induction accepted_formats as [|f rest IH]; cbn; [discriminate|].
  destruct record as [node|]; [|discriminate].
  unfold find_link. destruct (has_quote f); [discriminate|].
  destruct (find node (link_path f)) as [link|]; [|exact IH].
  destruct (attrib link !! "href"); discriminate.
Qed.

(** X14. On an open-access client, with formats free of quote characters,
    the resolver always comes back, and when it raises it is with the
    exception of the dispatch itself, with [AttributeError] on a document
    that parses and holds neither an [error] child nor a [record] element
    while some format is accepted, or with [KeyError] because the first
    link of an accepted format under the first record has no [href]. A body
    that does not parse never makes it raise. *)
Theorem resolver_raises_only (self : client) (article_id : string)
    (accepted_formats : list string) :
  parameters self !! "db" = Some (VStr "pmc") ->
  Forall quote_free accepted_formats ->
  get_article_download_url fromstring oa_lookup self article_id accepted_formats
    <> Running /\
  forall e,
    get_article_download_url fromstring oa_lookup self article_id accepted_formats
      = Raise e ->
    oa_lookup (oa_request self article_id) = Raised e \/
    exists res root,
      oa_lookup (oa_request self article_id) = Returned res /\
      fromstring res = Returned root /\ ~ has_error root /\
      ((e = AttributeError /\ ~ has_record root /\ accepted_formats <> []) \/
       (e = KeyError /\
        exists record fmt link,
          first_record_of root record /\ fmt ∈ accepted_formats /\
          first_link_of record fmt link /\ attrib link !! "href" = None)).
Proof.
  intros Hdb Hq.
  destruct (oa_lookup (oa_request self article_id)) as [res|e0] eqn:Hres.
  2:{ unfold get_article_download_url. rewrite Hdb.
      change (negb (is_str (VStr "pmc") "pmc")) with false. cbv iota.
      fold (oa_request self article_id). rewrite Hres. cbn.
      split; [discriminate|]. intros e [= <-]. by left. }
  destruct (fromstring res) as [root|e0] eqn:Hroot.
  2:{ unfold get_article_download_url. rewrite Hdb.
      change (negb (is_str (VStr "pmc") "pmc")) with false. cbv iota.
      fold (oa_request self article_id). rewrite Hres. cbn.
      unfold extract_xml. rewrite Hroot. split; discriminate. }
  rewrite (resolver_parsed _ _ _ _ _ _ _ Hdb Hres Hroot).
  destruct (find root [Child "error" None]) as [err|] eqn:Herr; [split; discriminate|].
  split; [apply first_accepted_link_terminates|].
  intros e He. right. exists res, root. split; [reflexivity|]. split; [exact Hroot|].
  split.
  { intros [x Hx]%find_error_Some. congruence. }
  destruct (find root [Descendant "record" None]) as [record|] eqn:Hrec.
  - right.
    apply (first_accepted_link_raises _ _ _ Hq) in He as (-> & fmt & link & Hin & Hl & Hh).
    split; [reflexivity|]. exists record, fmt, link.
    split; [by apply find_record_Some|done].
  - left. rewrite first_accepted_link_no_record in He.
    destruct accepted_formats; [discriminate|]. injection He as <-.
    split; [reflexivity|]. split; [by apply find_record_None|discriminate].
Qed.

Section Batches.

Import PubMedClientBase.

Variable esearch : nat -> gmap string value -> completed json.

(** X15. On an open-access client, [query_article_download_urls] makes the
    search of [get_article_ids] and resolves the identifiers in the order
    it found them: when every
    resolution returns, the result has one entry per identifier, [None]
    included, in that order; when one raises, the exception of the first
    that does is the outcome of the whole call, and no link is returned. *)
Theorem query_article_download_urls_resolves_in_order fuel self query max_results
    accepted_formats ids sent :
  parameters self !! "db" = Some (VStr "pmc") ->
  get_article_ids esearch fuel self query max_results [] = (Ret ids, sent) ->
  snd (PMCQuery.query_article_download_urls fromstring oa_lookup esearch fuel self
         query max_results accepted_formats []) = sent /\
  ((forall article_id, article_id ∈ ids ->
      exists url, get_article_download_url fromstring oa_lookup self article_id
                    accepted_formats = Ret url) ->
   exists urls,
     fst (PMCQuery.query_article_download_urls fromstring oa_lookup esearch fuel self
            query max_results accepted_formats []) = Ret urls /\
     Forall2 (fun article_id url =>
                get_article_download_url fromstring oa_lookup self article_id
                  accepted_formats = Ret url) ids urls) /\
  (forall before article_id after e,
     ids = before ++ article_id :: after ->
     (forall earlier, earlier ∈ before ->
        exists url, get_article_download_url fromstring oa_lookup self earlier
                      accepted_formats = Ret url) ->
     get_article_download_url fromstring oa_lookup self article_id accepted_formats
       = Raise e ->
     fst (PMCQuery.query_article_download_urls fromstring oa_lookup esearch fuel self
            query max_results accepted_formats []) = Raise e).
Proof.
  intros Hdb Hids. unfold PMCQuery.query_article_download_urls. rewrite Hdb.
  change (negb (is_str (VStr "pmc") "pmc")) with false. cbv iota.
  unfold mbind, io_bind, lift. rewrite Hids. cbn [fst snd].
  rewrite each_is_collected. split; [reflexivity|]. split.
  - intros Hall.
    destruct (yield_each_all _ _ Hall) as [Hy Hf].
    eexists. unfold collected. rewrite Hf. split; [reflexivity|exact Hy].
  - intros before article_id after e -> Hbefore Hbad.
    destruct (yield_each_first_failure _ before article_id after e Hbefore Hbad)
      as [_ Hf].
    unfold collected. by rewrite Hf.
Qed.

(** X16. The article client of [pymedB], whose database is ["pubmed"],
    never resolves a link: [get_article_download_url] and
    [query_article_download_urls] raise at the database guard, for every
    argument, the second one before any dispatch. *)
Theorem pubmed_client_downloads_always_raise tool email api_key :
  (forall article_id accepted_formats,
     PubMed.get_article_download_url fromstring oa_lookup
       (PubMed.__init__ tool email api_key) article_id accepted_formats =
     Raise (Exception (guard_message (VStr "pubmed")))) /\
  (forall fuel query max_results accepted_formats sent,
     PMCQuery.query_article_download_urls fromstring oa_lookup esearch fuel
       (PubMed.__init__ tool email api_key) query max_results accepted_formats sent =
     (Raise (Exception (guard_message (VStr "pubmed"))), sent)).
Proof.
  assert (Hdb : parameters (PubMed.__init__ tool email api_key) !! "db"
                = Some (VStr "pubmed")).
  { unfold PubMed.__init__, PubMedClientBase.__init__. cbn.
    destruct api_key; by simplify_map_eq. }
  split.
  - intros article_id accepted_formats.
    unfold PubMed.get_article_download_url, get_article_download_url.
    rewrite Hdb. reflexivity.
  - intros fuel query max_results accepted_formats sent.
    unfold PMCQuery.query_article_download_urls. rewrite Hdb. reflexivity.
Qed.

End Batches.

End BatchFacts.

(** X14 on a record whose [pdf] link has no [href]. *)
Lemma resolver_raises_only_witness :
  PMC.get_article_download_url (fun _ => Returned bare_link_only) (fun _ => Returned "")
    (PMC.__init__ "my_tool" "my_email@example.com" None) "PMC1" ["pdf"; "tgz"]
    <> Running /\
  forall e,
    PMC.get_article_download_url (fun _ => Returned bare_link_only)
      (fun _ => Returned "") (PMC.__init__ "my_tool" "my_email@example.com" None)
      "PMC1" ["pdf"; "tgz"] = Raise e ->
    (Returned "" : completed string) = Raised e \/
    exists res root,
      (Returned "" : completed string) = Returned res /\
      Returned bare_link_only = Returned root /\
      ~ has_error root /\
      ((e = AttributeError /\ ~ has_record root /\ ["pdf"; "tgz"] <> []) \/
       (e = KeyError /\
        exists record fmt link,
          first_record_of root record /\ fmt ∈ ["pdf"; "tgz"] /\
          first_link_of record fmt link /\ attrib link !! "href" = None)).
Proof.
  apply (resolver_raises_only (fun _ => Returned bare_link_only) (fun _ => Returned "")
           (PMC.__init__ "my_tool" "my_email@example.com" None) "PMC1" ["pdf"; "tgz"]).
  - apply init_db.
  - exact pdf_tgz_quote_free.
Defined.

(** X15 on a search that finds two identifiers, the second of which has no
    record: the call raises, the link of the first is lost. *)
Lemma query_article_download_urls_resolves_in_order_witness :
  PMC.get_article_download_url tgz_for_13901 echo_id
    (PMC.__init__ "my_tool" "my_email@example.com" None) "PMC13901" ["pdf"; "tgz"] =
    Ret (Some "ftp://ftp.ncbi.nlm.nih.gov/pub/pmc/8e/71/PMC13901.tar.gz") /\
  fst (PMCQuery.query_article_download_urls tgz_for_13901 echo_id two_found 0
         (PMC.__init__ "my_tool" "my_email@example.com" None) "cancer" 2
         ["pdf"; "tgz"] []) = Raise AttributeError.
Proof.
  split; [reflexivity|].
  destruct (query_article_download_urls_resolves_in_order tgz_for_13901 echo_id
              two_found 0 (PMC.__init__ "my_tool" "my_email@example.com" None)
              "cancer" 2 ["pdf"; "tgz"] ["PMC13901"; "PMC0"]
              [first_request (PMC.__init__ "my_tool" "my_email@example.com" None)
                 "cancer" 2])
    as (_ & _ & Hfails).
  - apply init_db.
  - reflexivity.
  - apply (Hfails ["PMC13901"] "PMC0" [] AttributeError).
    + reflexivity.
    + intros earlier Hin. apply list_elem_of_singleton in Hin as ->.
      eexists. reflexivity.
    + reflexivity.
Defined.
